(** * Cloud relay server (src/server.js): session registry and relay router

    Shallow embedding of the socket.io handlers of [src/server.js].
    The three process-wide [Map]s ([agents], [controllers], [pairingCodes])
    are association lists that keep the insertion order of a JS [Map]
    (it fixes the order of [forEach] and hence of the emitted messages).
    A socket is identified with its [socket.id]: the [socket] stored in an
    agent or controller entry is always the socket whose id is the entry's
    key, so [socket.connected] is "that id has not disconnected yet".
    Each inbound transport event is one call of [step], processed to
    completion (the single-threaded event loop); [Math.random()] and
    [Date.now()] are inputs carried by the event. *)

From Stdlib Require Import List String Ascii ZArith Bool Lia.
Import ListNotations.

Set Warnings "-register-all".

Local Open Scope string_scope.

Definition Id := string.

(** JS values as the handlers see them (payloads decoded by socket.io). *)
Inductive JVal : Type :=
| VUndef
| VNull
| VBool (b : bool)
| VNum (z : Z)
| VStr (s : string)
| VArr (l : list JVal)
| VObj (fs : list (string * JVal)).

(** Truthiness, as used by [||] and [if (x)]. *)
Definition truthy (v : JVal) : bool :=
  match v with
  | VUndef | VNull => false
  | VBool b => b
  | VNum z => negb (Z.eqb z 0)
  | VStr s => negb (String.eqb s "")
  | VArr _ | VObj _ => true
  end.

(** ** JS [Map] with string keys, in insertion order *)
Module JsMap.
Section M.
Context {V : Type}.

Definition t := list (string * V).

Fixpoint get (m : t) (k : string) : option V :=
  match m with
  | [] => None
  | (k', v) :: r => if String.eqb k k' then Some v else get r k
  end.

Definition has (m : t) (k : string) : bool :=
  match get m k with Some _ => true | None => false end.

(** [m.set(k, v)]: an existing key keeps its position. *)
Fixpoint set (m : t) (k : string) (v : V) : t :=
  match m with
  | [] => [(k, v)]
  | (k', v') :: r =>
      if String.eqb k k' then (k', v) :: r else (k', v') :: set r k v
  end.

Definition delete (m : t) (k : string) : t :=
  filter (fun kv => negb (String.eqb k (fst kv))) m.

(** [m.get(x)] for an arbitrary JS value [x]: the keys are strings and
    [Map] compares with SameValueZero, so only a string can hit. *)
Definition get_v (m : t) (x : JVal) : option V :=
  match x with VStr k => get m k | _ => None end.

End M.
End JsMap.
Arguments JsMap.t : clear implicits.

(** ** JS [Set] of ids, in insertion order *)
Module JsSet.
Definition t := list Id.

Definition has (s : t) (x : Id) : bool := existsb (String.eqb x) s.

Definition add (s : t) (x : Id) : t := if has s x then s else app s [x].

Definition delete (s : t) (x : Id) : t :=
  filter (fun y => negb (String.eqb x y)) s.
End JsSet.

(** ** Property access and object spread *)

(** Property [k] of a JS object given as its own properties. *)
Definition obj_get (fs : list (string * JVal)) (k : string) : JVal :=
  match JsMap.get fs k with Some v => v | None => VUndef end.

(** [v?.k] (and [v.k] on a non-nullish [v]): only objects carry the
    property names the handlers read ([code], [info], [agentId],
    [targetAgent], [hostname], ...). *)
Definition get_field (v : JVal) (k : string) : JVal :=
  match v with VObj fs => obj_get fs k | _ => VUndef end.

(** Decimal rendering of a non-negative integer ([Number.prototype.toString]
    on the integers the server renders). *)
Fixpoint digits_aux (fuel : nat) (n : Z) (acc : string) : string :=
  match fuel with
  | O => acc
  | S f =>
      let acc' := String (ascii_of_nat (48 + Z.to_nat (Z.modulo n 10))) acc in
      let q := Z.div n 10 in
      if Z.eqb q 0 then acc' else digits_aux f q acc'
  end.

Definition z_to_string (n : Z) : string :=
  if Z.ltb n 0 then "-" ++ digits_aux 64 (- n) "" else digits_aux 64 n "".

Fixpoint index_props {A} (f : A -> JVal) (i : Z) (l : list A)
  : list (string * JVal) :=
  match l with
  | [] => []
  | x :: r => (z_to_string i, f x) :: index_props f (i + 1) r
  end.

Fixpoint chars (s : string) : list string :=
  match s with
  | EmptyString => []
  | String c r => String c EmptyString :: chars r
  end.

(** The own enumerable properties copied by [{ ...v }]. *)
Definition spread (v : JVal) : list (string * JVal) :=
  match v with
  | VObj fs => fs
  | VArr l => index_props (fun x => x) 0 l
  | VStr s => index_props VStr 0 (chars s)
  | VUndef | VNull | VBool _ | VNum _ => []
  end.

(** [{ ...fs, k: v }]: a property already present keeps its place. *)
Definition obj_set (fs : list (string * JVal)) (k : string) (v : JVal) :=
  JsMap.set fs k v.

(** ** Registry state (lines 22-25) *)

(** [agents]: agentId -> { socket, info, controllerId } *)
Record Agent := mkAgent { a_info : JVal; a_controllerId : Id }.

(** [controllers]: controllerId -> { socket, info, code, agentIds } *)
Record Controller := mkController {
  c_info : JVal; c_code : string; c_agentIds : JsSet.t }.

(** [pairingCodes]: code -> { controllerId, created } *)
Record Pairing := mkPairing { p_controllerId : Id; p_created : Z }.

Record State := mkState {
  agents : JsMap.t Agent;
  controllers : JsMap.t Controller;
  pairingCodes : JsMap.t Pairing;
  closed : list Id  (** ids of sockets that have disconnected *)
}.

Definition init : State := mkState [] [] [] [].

(** [socket.connected] of the socket with this id. *)
Definition connected (s : State) (x : Id) : bool :=
  negb (existsb (String.eqb x) (closed s)).

(** One [socket.emit(event, payload)]; [VUndef] when no payload. *)
Record Emit := mkEmit { e_to : Id; e_event : string; e_payload : JVal }.

(** Inbound transport events.  [EvControllerRegister] carries [rnd], with
    [Math.floor(100000 + Math.random() * 900000) = 100000 + rnd], and
    [now = Date.now()]. *)
Inductive Event : Type :=
| EvControllerRegister (sid : Id) (info : JVal) (rnd : Z) (now : Z)
| EvConnectAgent (sid : Id) (agentId : JVal)
| EvAgentRegister (sid : Id) (data : JVal)
| EvControl (sid : Id) (name : string) (data : JVal)
| EvAgentMsg (sid : Id) (name : string) (data : JVal)
| EvDisconnect (sid : Id)
| EvSweep (now : Z).

(** A handler either runs to completion or throws a [TypeError]. *)
Inductive Outcome : Type :=
| Done (s : State) (out : list Emit)
| Threw.

(** [generateCode] (lines 28-30). *)
Definition generateCode (rnd : Z) : string := z_to_string (100000 + rnd).

(** Agent summaries of [agents] whose [controllerId === cid] (lines 106-116). *)
Definition agent_list (ags : JsMap.t Agent) (cid : Id) : list JVal :=
  map (fun kv =>
         let info := a_info (snd kv) in
         VObj [("id", VStr (fst kv)); ("hostname", get_field info "hostname");
               ("username", get_field info "username");
               ("platform", get_field info "platform")])
      (filter (fun kv => String.eqb (a_controllerId (snd kv)) cid) ags).

(** [socket.on('controller:register', ...)] (lines 81-118). *)
Definition on_controller_register (s : State) (sid : Id) (info : JVal)
    (rnd now : Z) : Outcome :=
  let controllerId := sid in
  let code := generateCode rnd in
  let cs := JsMap.set (controllers s) controllerId (mkController info code []) in
  let pc := JsMap.set (pairingCodes s) code (mkPairing controllerId now) in
  Done (mkState (agents s) cs pc (closed s))
    [mkEmit sid "controller:registered"
       (VObj [("controllerId", VStr controllerId); ("code", VStr code);
              ("message", VStr "Share this code with agents to connect")]);
     mkEmit sid "controller:agent-list" (VArr (agent_list (agents s) controllerId))].

(** [socket.on('controller:connect-agent', ...)] (lines 121-129). *)
Definition on_connect_agent (s : State) (sid : Id) (agentId : JVal) : Outcome :=
  match JsMap.get_v (agents s) agentId, agentId with
  | Some _, VStr k =>
      if connected s k
      then Done s [mkEmit sid "controller:agent-connected" (VObj [("agentId", agentId)])]
      else Done s [mkEmit sid "controller:agent-error"
                     (VObj [("error", VStr "Agent not found or offline")])]
  | _, _ => Done s [mkEmit sid "controller:agent-error"
                      (VObj [("error", VStr "Agent not found or offline")])]
  end.

(** [socket.on('agent:register', ...)] (lines 134-175).  The destructuring
    [const { code, info } = data] throws on [undefined] and [null]. *)
Definition on_agent_register (s : State) (sid : Id) (data : JVal) : Outcome :=
  match data with
  | VUndef | VNull => Threw
  | _ =>
    let code := get_field data "code" in
    let info := get_field data "info" in
    let agentId := sid in
    match JsMap.get_v (pairingCodes s) code with
    | None => Done s [mkEmit sid "agent:error" (VObj [("error", VStr "Invalid pairing code")])]
    | Some pairing =>
      let cid := p_controllerId pairing in
      match JsMap.get (controllers s) cid with
      | None => Done s [mkEmit sid "agent:error" (VObj [("error", VStr "Controller not found")])]
      | Some controller =>
        let ags := JsMap.set (agents s) agentId (mkAgent info cid) in
        let controller' := mkController (c_info controller) (c_code controller)
                             (JsSet.add (c_agentIds controller) agentId) in
        let cs := JsMap.set (controllers s) cid controller' in
        Done (mkState ags cs (pairingCodes s) (closed s))
          [mkEmit sid "agent:registered"
             (VObj [("agentId", VStr agentId); ("controllerId", VStr cid)]);
           mkEmit cid "controller:agent-joined"
             (VObj [("id", VStr agentId); ("hostname", get_field info "hostname");
                    ("username", get_field info "username");
                    ("platform", get_field info "platform");
                    ("screens", get_field info "screens")])]
      end
    end
  end.

(** Lines 180-188. *)
Definition controlEvents : list string :=
  ["control:start-stream"; "control:stop-stream"; "control:set-quality";
   "control:set-monitor"; "control:mouse"; "control:keyboard"; "control:scroll";
   "control:clipboard-set"; "control:clipboard-get"; "control:file-list";
   "control:file-download"; "control:file-upload"; "control:system-info";
   "control:processes"; "control:kill-process"; "control:command";
   "control:shell"; "control:message"; "control:secret-stop";
   "control:get-agent-status"].

(** Lines 203-207. *)
Definition agentEvents : list string :=
  ["agent:frame"; "agent:clipboard"; "agent:file-list"; "agent:file-download";
   "agent:file-upload"; "agent:system-info"; "agent:processes";
   "agent:kill-process"; "agent:shell"; "agent:heartbeat"].

Definition listed (l : list string) (e : string) : bool := existsb (String.eqb e) l.

(** [data?.agentId || data?.targetAgent] (line 192). *)
Definition control_target (data : JVal) : JVal :=
  let a := get_field data "agentId" in
  if truthy a then a else get_field data "targetAgent".

(** The handler of a control event (lines 191-199). *)
Definition on_control (s : State) (event : string) (data : JVal) : Outcome :=
  let targetAgentId := control_target data in
  if truthy targetAgentId then
    match JsMap.get_v (agents s) targetAgentId, targetAgentId with
    | Some _, VStr k =>
        if connected s k then Done s [mkEmit k event data] else Done s []
    | _, _ => Done s []
    end
  else Done s [].

(** The handler of an agent event (lines 210-218). *)
Definition on_agent_msg (s : State) (sid : Id) (event : string) (data : JVal)
  : Outcome :=
  match JsMap.get (agents s) sid with
  | Some agent =>
      let cid := a_controllerId agent in
      match JsMap.get (controllers s) cid with
      | Some _ =>
          if connected s cid
          then Done s [mkEmit cid event (VObj (obj_set (spread data) "agentId" (VStr sid)))]
          else Done s []
      | None => Done s []
      end
  | None => Done s []
  end.

(** The agent half of [socket.on('disconnect', ...)] (lines 225-236). *)
Definition disconnect_agent (s : State) (sid : Id) : State * list Emit :=
  match JsMap.get (agents s) sid with
  | Some agent =>
      let cid := a_controllerId agent in
      let '(cs, out) :=
        match JsMap.get (controllers s) cid with
        | Some controller =>
            (JsMap.set (controllers s) cid
               (mkController (c_info controller) (c_code controller)
                  (JsSet.delete (c_agentIds controller) sid)),
             [mkEmit cid "controller:agent-left" (VObj [("agentId", VStr sid)])])
        | None => (controllers s, [])
        end in
      (mkState (JsMap.delete (agents s) sid) cs (pairingCodes s) (closed s), out)
  | None => (s, [])
  end.

(** [controller.agentIds.forEach(...)] of lines 243-248. *)
Definition notify_agents (ags : JsMap.t Agent) (agentIds : JsSet.t) : list Emit :=
  flat_map (fun agentId =>
              match JsMap.get ags agentId with
              | Some _ => [mkEmit agentId "agent:controller-disconnected" VUndef]
              | None => []
              end) agentIds.

(** The controller half (lines 239-259). *)
Definition disconnect_controller (s : State) (sid : Id) : State * list Emit :=
  match JsMap.get (controllers s) sid with
  | Some controller =>
      let out := notify_agents (agents s) (c_agentIds controller) in
      let pc := filter (fun kv => negb (String.eqb (p_controllerId (snd kv)) sid))
                  (pairingCodes s) in
      (mkState (agents s) (JsMap.delete (controllers s) sid) pc (closed s), out)
  | None => (s, [])
  end.

(** [socket.on('disconnect', ...)]: the transport marks the socket
    disconnected, then the handler runs its two halves in order. *)
Definition on_disconnect (s : State) (sid : Id) : Outcome :=
  let s0 := mkState (agents s) (controllers s) (pairingCodes s) (sid :: closed s) in
  let '(s1, out1) := disconnect_agent s0 sid in
  let '(s2, out2) := disconnect_controller s1 sid in
  Done s2 (app out1 out2).

(** The hourly sweep of lines 264-271. *)
Definition sweep (s : State) (now : Z) : Outcome :=
  let oneHourAgo := (now - 3600000)%Z in
  Done (mkState (agents s) (controllers s)
          (filter (fun kv => negb (Z.ltb (p_created (snd kv)) oneHourAgo))
             (pairingCodes s))
          (closed s)) [].

(** The sender of an event ([None] for the timer). *)
Definition sender (e : Event) : option Id :=
  match e with
  | EvControllerRegister sid _ _ _ | EvConnectAgent sid _ | EvAgentRegister sid _
  | EvControl sid _ _ | EvAgentMsg sid _ _ | EvDisconnect sid => Some sid
  | EvSweep _ => None
  end.

(** Dispatch of one inbound event.  A disconnected socket delivers no
    further events; an event name without a handler is ignored. *)
Definition step (s : State) (e : Event) : Outcome :=
  match sender e with
  | Some sid => if negb (connected s sid) then Done s [] else
      match e with
      | EvControllerRegister _ info rnd now => on_controller_register s sid info rnd now
      | EvConnectAgent _ agentId => on_connect_agent s sid agentId
      | EvAgentRegister _ data => on_agent_register s sid data
      | EvControl _ name data =>
          if listed controlEvents name then on_control s name data else Done s []
      | EvAgentMsg _ name data =>
          if listed agentEvents name then on_agent_msg s sid name data else Done s []
      | EvDisconnect _ => on_disconnect s sid
      | EvSweep now => sweep s now
      end
  | None => match e with EvSweep now => sweep s now | _ => Done s [] end
  end.

(** A sequence of events from a state; [None] once a handler throws. *)
Fixpoint run (s : State) (es : list Event) : option (State * list Emit) :=
  match es with
  | [] => Some (s, [])
  | e :: r =>
      match step s e with
      | Threw => None
      | Done s' out =>
          match run s' r with
          | Some (s'', out') => Some (s'', app out out')
          | None => None
          end
      end
  end.

Definition state_of (o : option (State * list Emit)) : State :=
  match o with Some (s, _) => s | None => init end.

(** [pairingCodes.get(code)]: the "resolve" of the pairing-code store. *)
Definition resolve (s : State) (code : string) : option Pairing :=
  JsMap.get (pairingCodes s) code.

Definition reg_data (code : string) (host : string) : JVal :=
  VObj [("code", VStr code); ("info", VObj [("hostname", VStr host)])].

(** * Invariants, run predicates and concrete event sequences *)

(** The events of [es] avoid the ones flagged by [bad], each checked in the
    state it is delivered in. *)
Fixpoint avoids (bad : State -> Event -> bool) (s : State) (es : list Event) : Prop :=
  match es with
  | [] => True
  | e :: r =>
      bad s e = false /\
      match step s e with Done s' _ => avoids bad s' r | Threw => True end
  end.

Definition no_bad (_ : State) (_ : Event) : bool := false.

(** Every id in a controller's [agentIds] is a key of [agents] whose
    [controllerId] is that controller. *)
Definition assoc_inv (s : State) : Prop :=
  forall cid c, JsMap.get (controllers s) cid = Some c ->
  forall x, In x (c_agentIds c) ->
  exists a, JsMap.get (agents s) x = Some a /\ a_controllerId a = cid.

(** [agent:register] sent by a connection that is already an agent. *)
Definition agent_rereg (s : State) (e : Event) : bool :=
  match e with EvAgentRegister sid _ => JsMap.has (agents s) sid | _ => false end.

Definition roles_inv (s : State) : Prop :=
  forall x, JsMap.has (agents s) x = true -> JsMap.has (controllers s) x = false.

(** A registration in the other role than the one the connection holds. *)
Definition role_switch (s : State) (e : Event) : bool :=
  match e with
  | EvControllerRegister sid _ _ _ => JsMap.has (agents s) sid
  | EvAgentRegister sid _ => JsMap.has (controllers s) sid
  | _ => false
  end.

(** The entries of [pairingCodes] whose [controllerId] is [cid]. *)
Definition owned_codes (pc : JsMap.t Pairing) (cid : Id) : JsMap.t Pairing :=
  filter (fun kv => String.eqb (p_controllerId (snd kv)) cid) pc.

Definition codes_inv (s : State) : Prop :=
  (forall k p, In (k, p) (pairingCodes s) -> JsMap.has (controllers s) (p_controllerId p) = true)
  /\ (forall cid, List.length (owned_codes (pairingCodes s) cid) <= 1).

(** Every pairing code names a registered controller. *)
Definition live_codes (s : State) : Prop :=
  forall k p, In (k, p) (pairingCodes s) -> JsMap.has (controllers s) (p_controllerId p) = true.

(** [controller:register] from a connection that is already a controller. *)
Definition controller_rereg (s : State) (e : Event) : bool :=
  match e with EvControllerRegister sid _ _ _ => JsMap.has (controllers s) sid | _ => false end.

Definition sets_inv (s : State) : Prop :=
  forall cid c, JsMap.get (controllers s) cid = Some c -> NoDup (c_agentIds c).

Definition ctrl (sid : Id) (rnd : Z) : Event := EvControllerRegister sid VUndef rnd 0.
Definition join (sid code : string) : Event := EvAgentRegister sid (reg_data code sid).
Definition outs_of (o : option (State * list Emit)) : list Emit :=
  match o with Some (_, out) => out | None => [] end.

(** Two agents join one controller. *)
Definition scen_pair : list Event := [ctrl "A" 0; join "X" "100000"; join "Y" "100000"].
(** An agent registers again with a second controller's code. *)
Definition scen_move : list Event :=
  [ctrl "A" 0; ctrl "B" 1; join "X" "100000"; join "X" "100001"].
(** A controller leaves its agent behind. *)
Definition scen_orphan : list Event := [ctrl "A" 0; join "X" "100000"; EvDisconnect "A"].
(** Two controllers draw the same random number. *)
Definition scen_collide : list Event := [ctrl "A" 0; ctrl "B" 0].
(** A controller joins itself as an agent. *)
Definition scen_both : list Event := [ctrl "A" 0; join "A" "100000"].
(** A controller registers twice. *)
Definition scen_twice : list Event := [ctrl "A" 0; ctrl "A" 1].

Definition spoofed_frame : JVal := VObj [("agentId", VStr "Z"); ("img", VNum 1)].

(** A registry holding a code whose controller is gone. *)
Definition dangling_code_state : State :=
  mkState [] [] [("123456", mkPairing "A" 0)] [].

Definition after_pair : State := state_of (run init scen_pair).
Definition notices_XY : list Emit :=
  map (fun x => mkEmit x "agent:controller-disconnected" VUndef) ["X"; "Y"].

Definition after_A : State := state_of (run init [ctrl "A" 0]).

(** ** HTTP routes (read-only views of the registry) *)

(** [GET /] (lines 33-40); [uptime] is [process.uptime()].  The routes build
    the object passed to [res.json]. *)
Definition health (s : State) (uptime : JVal) : JVal :=
  VObj [("status", VStr "online");
        ("agents", VNum (Z.of_nat (List.length (agents s))));
        ("controllers", VNum (Z.of_nat (List.length (controllers s))));
        ("uptime", uptime)].

(** [GET /lookup/:code] (lines 43-52). *)
Definition lookup (s : State) (code : string) : JVal :=
  match JsMap.get (pairingCodes s) code with
  | Some pairing => VObj [("found", VBool true); ("controllerId", VStr (p_controllerId pairing))]
  | None => VObj [("found", VBool false)]
  end.

(** [GET /agents/:controllerId] (lines 55-69). *)
Definition agents_for (s : State) (controllerId : string) : list JVal :=
  map (fun kv =>
         let info := a_info (snd kv) in
         VObj [("id", VStr (fst kv)); ("hostname", get_field info "hostname");
               ("username", get_field info "username");
               ("platform", get_field info "platform"); ("connected", VBool true)])
      (filter (fun kv => String.eqb (a_controllerId (snd kv)) controllerId) (agents s)).

(** The three maps have unique keys. *)
Definition keys_inv (s : State) : Prop :=
  NoDup (map fst (agents s)) /\ NoDup (map fst (controllers s)) /\
  NoDup (map fst (pairingCodes s)).

(** Every agent's [controllerId] is a live controller or a socket that has
    disconnected. *)
Definition owner_inv (s : State) : Prop :=
  forall x a, JsMap.get (agents s) x = Some a ->
  JsMap.has (controllers s) (a_controllerId a) = true \/
  connected s (a_controllerId a) = false.

(** A controller registered at time 1000 and one agent. *)
Definition scen_sweep : list Event :=
  [EvControllerRegister "A" VUndef 0 1000; join "X" "100000"].

Example ex_code : generateCode 23456 = "123456". Proof. reflexivity. Qed.

Example ex_run :
  exists s out, run init
    [EvControllerRegister "A" VUndef 0 5; EvAgentRegister "X" (reg_data "100000" "h");
     EvAgentMsg "X" "agent:frame" (VObj [("agentId", VStr "Z"); ("img", VNum 1)])]
  = Some (s, out) /\ last out (mkEmit "" "" VUndef)
      = mkEmit "A" "agent:frame" (VObj [("agentId", VStr "X"); ("img", VNum 1)]).
Proof. eexists _, _. split; reflexivity. Qed.

(** * Map and set lemmas *)

Module JsMapFacts.
Section Facts.
Context {V : Type}.
Implicit Types (m : JsMap.t V) (k : string) (v : V).

Lemma get_set m k k' v :
  JsMap.get (JsMap.set m k v) k' = if String.eqb k' k then Some v else JsMap.get m k'.
Proof.
  induction m as [|[k0 v0] r IH]; simpl.
  - reflexivity.
  - destruct (String.eqb_spec k k0) as [->|Hne]; simpl.
    + destruct (String.eqb k' k0); reflexivity.
    + rewrite IH. destruct (String.eqb_spec k' k0) as [->|]; [|reflexivity].
      destruct (String.eqb_spec k0 k); [congruence|reflexivity].
Qed.

Lemma get_filter m k v (f : string * V -> bool) :
  JsMap.get (filter f m) k = Some v -> f (k, v) = true.
Proof.
  induction m as [|[k0 v0] r IH]; simpl; [discriminate|].
  destruct (f (k0, v0)) eqn:Hf; simpl; [|exact IH].
  destruct (String.eqb_spec k k0) as [->|]; [intros [= <-]; exact Hf|exact IH].
Qed.

Lemma get_filter_keep m k (f : string * V -> bool) :
  (forall v, f (k, v) = true) -> JsMap.get (filter f m) k = JsMap.get m k.
Proof.
  intros Hk. induction m as [|[k0 v0] r IH]; simpl; [reflexivity|].
  destruct (String.eqb_spec k k0) as [->|Hne].
  - rewrite Hk. simpl. rewrite String.eqb_refl. reflexivity.
  - destruct (f (k0, v0)); simpl; [|exact IH].
    destruct (String.eqb_spec k k0); [congruence|exact IH].
Qed.

Lemma get_delete m k k' :
  JsMap.get (JsMap.delete m k) k' = if String.eqb k' k then None else JsMap.get m k'.
Proof.
  unfold JsMap.delete. destruct (String.eqb_spec k' k) as [->|Hne].
  - destruct (JsMap.get _ k) eqn:E; [|reflexivity].
    apply get_filter in E. simpl in E. rewrite String.eqb_refl in E. discriminate.
  - apply get_filter_keep. intros v. simpl.
    destruct (String.eqb_spec k k'); [congruence|reflexivity].
Qed.

End Facts.
End JsMapFacts.

Lemma In_set_add l x y : In y (JsSet.add l x) -> In y l \/ y = x.
Proof.
  unfold JsSet.add. destruct (JsSet.has l x); [auto|].
  rewrite in_app_iff. simpl. intuition.
Qed.

Lemma In_set_delete l x y : In y (JsSet.delete l x) -> In y l /\ y <> x.
Proof.
  unfold JsSet.delete. rewrite filter_In. intros [H1 H2]. split; [exact H1|].
  intros ->. rewrite String.eqb_refl in H2. discriminate.
Qed.

Ltac map_simpl :=
  repeat first [ rewrite JsMapFacts.get_set in * | rewrite JsMapFacts.get_delete in * ].


(** * Runs and invariants *)

Lemma run_invariant (P : State -> Prop) (bad : State -> Event -> bool) :
  (forall s e s' out, P s -> bad s e = false -> step s e = Done s' out -> P s') ->
  forall es s s'' out, P s -> avoids bad s es -> run s es = Some (s'', out) -> P s''.
Proof.
  intros Hstep es. induction es as [|e r IH]; simpl; intros s s'' out Hs Hav Hrun.
  - congruence.
  - destruct Hav as [Hb Hav]. destruct (step s e) as [s' o|] eqn:E; [|discriminate].
    destruct (run s' r) as [[s3 o3]|] eqn:Er; [|discriminate].
    injection Hrun as <- _. eapply IH; [|exact Hav|exact Er]. eapply Hstep; eauto.
Qed.

Lemma avoids_no_bad es s : avoids no_bad s es.
Proof.
  revert s. induction es as [|e r IH]; simpl; [trivial|].
  intros s. split; [reflexivity|]. destruct (step s e); [apply IH|trivial].
Qed.

(** Handlers that leave the registry as it is. *)
Lemma connect_agent_state s sid x s' out :
  on_connect_agent s sid x = Done s' out -> s' = s.
Proof.
  unfold on_connect_agent.
  destruct (JsMap.get_v _ _), x; try (intros [= <- _]; reflexivity).
  destruct (connected s s0); intros [= <- _]; reflexivity.
Qed.

Lemma control_state s n d s' out : on_control s n d = Done s' out -> s' = s.
Proof.
  unfold on_control. destruct (truthy _); [|intros [= <- _]; reflexivity].
  destruct (JsMap.get_v _ _), (control_target d); try (intros [= <- _]; reflexivity).
  destruct (connected s s0); intros [= <- _]; reflexivity.
Qed.

Lemma agent_msg_state s sid n d s' out : on_agent_msg s sid n d = Done s' out -> s' = s.
Proof.
  unfold on_agent_msg. destruct (JsMap.get (agents s) sid); [|intros [= <- _]; reflexivity].
  destruct (JsMap.get (controllers s) _); [|intros [= <- _]; reflexivity].
  destruct (connected s _); intros [= <- _]; reflexivity.
Qed.

Lemma agent_register_fail s sid d s' out :
  on_agent_register s sid d = Done s' out ->
  s' = s \/
  exists p c, JsMap.get_v (pairingCodes s) (get_field d "code") = Some p /\
    JsMap.get (controllers s) (p_controllerId p) = Some c /\
    s' = mkState (JsMap.set (agents s) sid (mkAgent (get_field d "info") (p_controllerId p)))
           (JsMap.set (controllers s) (p_controllerId p)
              (mkController (c_info c) (c_code c) (JsSet.add (c_agentIds c) sid)))
           (pairingCodes s) (closed s).
Proof.
  unfold on_agent_register. intros H.
  destruct d; try discriminate;
  (destruct (JsMap.get_v _ _) as [p|] eqn:Ep; [|injection H as <- _; left; reflexivity]);
  (destruct (JsMap.get _ (p_controllerId p)) as [c|] eqn:Ec; [|injection H as <- _; left; reflexivity]);
  injection H as <- _; right; exists p, c; auto.
Qed.

(** The cases of [step] by the part of the registry they may touch. *)
Lemma step_shapes s e s' out :
  step s e = Done s' out ->
  s' = s
  \/ (exists sid info rnd now, e = EvControllerRegister sid info rnd now /\
        connected s sid = true /\ on_controller_register s sid info rnd now = Done s' out)
  \/ (exists sid d, e = EvAgentRegister sid d /\ connected s sid = true /\
        on_agent_register s sid d = Done s' out)
  \/ (exists sid, e = EvDisconnect sid /\ connected s sid = true /\
        on_disconnect s sid = Done s' out)
  \/ (exists now, e = EvSweep now /\ sweep s now = Done s' out).
Proof.
  unfold step. destruct e; cbn [sender];
  try (destruct (connected s sid) eqn:Hc; cbn [negb]; [|intros [= <- _]; left; reflexivity]).
  - intros H. right; left. eauto 8.
  - intros H. left. eapply connect_agent_state; eauto.
  - intros H. right; right; left. eauto.
  - destruct (listed controlEvents name); [|intros [= <- _]; left; reflexivity].
    intros H. left. eapply control_state; eauto.
  - destruct (listed agentEvents name); [|intros [= <- _]; left; reflexivity].
    intros H. left. eapply agent_msg_state; eauto.
  - intros H. right; right; right; left. eauto.
  - intros H. right; right; right; right. eauto.
Qed.

Lemma sweep_state s now s' out :
  sweep s now = Done s' out ->
  agents s' = agents s /\ controllers s' = controllers s /\ closed s' = closed s /\
  exists f, pairingCodes s' = filter f (pairingCodes s).
Proof.
  unfold sweep. intros [= <- _]. simpl. repeat split. eexists. reflexivity.
Qed.

(** The two halves of the disconnect handler as state updates. *)
Lemma disconnect_agent_shape s sid :
  disconnect_agent s sid =
  match JsMap.get (agents s) sid with
  | Some agent =>
      match JsMap.get (controllers s) (a_controllerId agent) with
      | Some c =>
          (mkState (JsMap.delete (agents s) sid)
             (JsMap.set (controllers s) (a_controllerId agent)
                (mkController (c_info c) (c_code c) (JsSet.delete (c_agentIds c) sid)))
             (pairingCodes s) (closed s),
           [mkEmit (a_controllerId agent) "controller:agent-left" (VObj [("agentId", VStr sid)])])
      | None => (mkState (JsMap.delete (agents s) sid) (controllers s) (pairingCodes s) (closed s), [])
      end
  | None => (s, [])
  end.
Proof.
  unfold disconnect_agent. destruct (JsMap.get (agents s) sid); [|reflexivity].
  destruct (JsMap.get (controllers s) _); reflexivity.
Qed.

Lemma on_disconnect_shape s sid :
  on_disconnect s sid =
  let s0 := mkState (agents s) (controllers s) (pairingCodes s) (sid :: closed s) in
  Done (fst (disconnect_controller (fst (disconnect_agent s0 sid)) sid))
       (snd (disconnect_agent s0 sid) ++ snd (disconnect_controller (fst (disconnect_agent s0 sid)) sid)).
Proof.
  unfold on_disconnect. cbv zeta.
  destruct (disconnect_agent _ sid) as [s1 o1]. simpl.
  destruct (disconnect_controller s1 sid) as [s2 o2]. reflexivity.
Qed.

(** * C1: agentIds entries point back at their controller *)

Lemma assoc_controller_register s sid info rnd now s' out :
  assoc_inv s -> on_controller_register s sid info rnd now = Done s' out -> assoc_inv s'.
Proof.
  unfold on_controller_register. intros Hinv [= <- _] cid c. simpl. map_simpl.
  destruct (String.eqb_spec cid sid) as [->|Hne].
  - intros [= <-] x [].
  - apply Hinv.
Qed.

Lemma assoc_agent_register s sid d s' out :
  assoc_inv s -> JsMap.has (agents s) sid = false ->
  on_agent_register s sid d = Done s' out -> assoc_inv s'.
Proof.
  intros Hinv Hfresh H.
  destruct (agent_register_fail _ _ _ _ _ H) as [->|(p & c & _ & Ec & ->)]; [exact Hinv|].
  intros cid c' Hc' x Hx. simpl in *. map_simpl.
  assert (Hxs : x <> sid -> exists a, JsMap.get (agents s) x = Some a /\ a_controllerId a = cid).
  { intros Hne. destruct (String.eqb_spec cid (p_controllerId p)) as [->|Hne'].
    - injection Hc' as <-. simpl in Hx. destruct (In_set_add _ _ _ Hx) as [Hin|]; [|congruence].
      exact (Hinv _ _ Ec x Hin).
    - exact (Hinv _ _ Hc' x Hx). }
  destruct (String.eqb_spec x sid) as [->|Hne].
  - destruct (String.eqb_spec cid (p_controllerId p)) as [->|Hne'].
    + eexists; split; reflexivity.
    + destruct (Hinv _ _ Hc' sid Hx) as (a & Ea & _).
      unfold JsMap.has in Hfresh. rewrite Ea in Hfresh. discriminate.
  - exact (Hxs Hne).
Qed.

Lemma assoc_disconnect s sid s' out :
  assoc_inv s -> on_disconnect s sid = Done s' out -> assoc_inv s'.
Proof.
  rewrite on_disconnect_shape. cbv zeta. intros Hinv [= <- _].
  set (s0 := mkState (agents s) (controllers s) (pairingCodes s) (sid :: closed s)).
  assert (Hinv1 : assoc_inv (fst (disconnect_agent s0 sid))).
  { rewrite disconnect_agent_shape. subst s0. simpl.
    destruct (JsMap.get (agents s) sid) as [a|] eqn:Ea; [|exact Hinv].
    assert (Hother : forall cid c x, JsMap.get (controllers s) cid = Some c ->
               In x (c_agentIds c) -> cid <> a_controllerId a -> x <> sid).
    { intros cid c x Hc Hx Hne ->. destruct (Hinv _ _ Hc sid Hx) as (a' & Ea' & Hcid).
      rewrite Ea in Ea'. injection Ea' as <-. congruence. }
    destruct (JsMap.get (controllers s) (a_controllerId a)) as [c0|] eqn:Ec;
      intros cid c' Hc' x Hx; simpl in *; map_simpl.
    - destruct (String.eqb_spec cid (a_controllerId a)) as [->|Hne].
      + injection Hc' as <-. simpl in Hx. destruct (In_set_delete _ _ _ Hx) as [Hin Hne].
        apply String.eqb_neq in Hne. rewrite Hne. exact (Hinv _ _ Ec x Hin).
      + pose proof (Hother _ _ _ Hc' Hx Hne) as Hne'. apply String.eqb_neq in Hne'.
        rewrite Hne'. exact (Hinv _ _ Hc' x Hx).
    - destruct (String.eqb_spec cid (a_controllerId a)) as [->|Hne]; [congruence|].
      pose proof (Hother _ _ _ Hc' Hx Hne) as Hne'. apply String.eqb_neq in Hne'.
      rewrite Hne'. exact (Hinv _ _ Hc' x Hx). }
  revert Hinv1. generalize (fst (disconnect_agent s0 sid)) as s1. intros s1 Hinv1.
  unfold disconnect_controller. destruct (JsMap.get (controllers s1) sid) as [cs|]; [|exact Hinv1].
  intros cid c Hc x Hx. simpl in *. map_simpl.
  destruct (String.eqb cid sid); [discriminate|]. exact (Hinv1 _ _ Hc x Hx).
Qed.

Lemma assoc_step s e s' out :
  assoc_inv s -> agent_rereg s e = false -> step s e = Done s' out -> assoc_inv s'.
Proof.
  intros Hinv Hb H.
  destruct (step_shapes _ _ _ _ H) as
    [->|[(sid & info & rnd & now & -> & _ & Hh)|[(sid & d & -> & _ & Hh)|[(sid & -> & _ & Hh)|(now & -> & Hh)]]]].
  - exact Hinv.
  - eapply assoc_controller_register; eauto.
  - eapply assoc_agent_register; eauto.
  - eapply assoc_disconnect; eauto.
  - destruct (sweep_state _ _ _ _ Hh) as (Ha & Hc & _). unfold assoc_inv. rewrite Ha, Hc. exact Hinv.
Qed.


Lemma has_set {V} (m : JsMap.t V) k v x :
  JsMap.has (JsMap.set m k v) x = String.eqb x k || JsMap.has m x.
Proof. unfold JsMap.has. rewrite JsMapFacts.get_set. destruct (String.eqb x k); reflexivity. Qed.

Lemma has_delete {V} (m : JsMap.t V) k x :
  JsMap.has (JsMap.delete m k) x = negb (String.eqb x k) && JsMap.has m x.
Proof. unfold JsMap.has. rewrite JsMapFacts.get_delete. destruct (String.eqb x k); reflexivity. Qed.

Lemma has_get {V} (m : JsMap.t V) k v : JsMap.get m k = Some v -> JsMap.has m k = true.
Proof. unfold JsMap.has. intros ->. reflexivity. Qed.

(** The keys of [controllers] after the agent half of a disconnect. *)
Lemma disconnect_agent_keys s sid x :
  JsMap.has (controllers (fst (disconnect_agent s sid))) x = JsMap.has (controllers s) x
  /\ pairingCodes (fst (disconnect_agent s sid)) = pairingCodes s
  /\ JsMap.has (agents (fst (disconnect_agent s sid))) x
     = (if JsMap.has (agents s) sid then negb (String.eqb x sid) else true) && JsMap.has (agents s) x.
Proof.
  rewrite disconnect_agent_shape.
  destruct (JsMap.get (agents s) sid) as [a|] eqn:Ea.
  - rewrite (has_get _ _ _ Ea).
    destruct (JsMap.get (controllers s) (a_controllerId a)) as [c|] eqn:Ec; simpl;
      rewrite ?has_set, ?has_delete; repeat split; try reflexivity.
    destruct (String.eqb_spec x (a_controllerId a)) as [->|]; simpl; [|reflexivity].
    symmetry. eapply has_get; eauto.
  - assert (Hn : JsMap.has (agents s) sid = false) by (unfold JsMap.has; rewrite Ea; reflexivity).
    rewrite Hn. simpl. auto.
Qed.

Lemma disconnect_controller_keys s sid x :
  agents (fst (disconnect_controller s sid)) = agents s
  /\ JsMap.has (controllers (fst (disconnect_controller s sid))) x
     = negb (String.eqb x sid) && JsMap.has (controllers s) x
  /\ pairingCodes (fst (disconnect_controller s sid))
     = if JsMap.has (controllers s) sid
       then filter (fun kv => negb (String.eqb (p_controllerId (snd kv)) sid)) (pairingCodes s)
       else pairingCodes s.
Proof.
  unfold disconnect_controller, JsMap.has at 2 3.
  destruct (JsMap.get (controllers s) sid) as [c|] eqn:Ec; simpl;
    rewrite ?has_delete; repeat split; try reflexivity.
  destruct (String.eqb_spec x sid) as [->|]; simpl; [|reflexivity].
  unfold JsMap.has. rewrite Ec. reflexivity.
Qed.

(** * C6: roles *)

Lemma roles_step s e s' out :
  roles_inv s -> role_switch s e = false -> step s e = Done s' out -> roles_inv s'.
Proof.
  intros Hinv Hb H.
  destruct (step_shapes _ _ _ _ H) as
    [->|[(sid & info & rnd & now & -> & _ & Hh)|[(sid & d & -> & _ & Hh)|[(sid & -> & _ & Hh)|(now & -> & Hh)]]]].
  - exact Hinv.
  - unfold on_controller_register in Hh. injection Hh as <- _. simpl in Hb.
    intros x Hx. simpl in *. rewrite has_set.
    destruct (String.eqb_spec x sid) as [->|]; [congruence|]. simpl. exact (Hinv x Hx).
  - simpl in Hb. destruct (agent_register_fail _ _ _ _ _ Hh) as [->|(p & c & _ & Ec & ->)]; [exact Hinv|].
    intros x Hx. simpl in *. rewrite has_set in Hx. rewrite has_set.
    pose proof (has_get _ _ _ Ec) as Hc.
    destruct (String.eqb_spec x (p_controllerId p)) as [->|].
    + destruct (String.eqb_spec (p_controllerId p) sid) as [Heq|]; simpl in Hx.
      * rewrite Heq in Hc. congruence.
      * rewrite (Hinv _ Hx) in Hc. discriminate.
    + simpl. destruct (String.eqb_spec x sid) as [Heq|Hne]; simpl in Hx.
      * rewrite Heq. exact Hb.
      * exact (Hinv x Hx).
  - rewrite on_disconnect_shape in Hh. cbv zeta in Hh. injection Hh as <- _.
    intros x Hx.
    destruct (disconnect_controller_keys (fst (disconnect_agent
      (mkState (agents s) (controllers s) (pairingCodes s) (sid :: closed s)) sid)) sid x)
      as (Ha2 & Hc2 & _).
    rewrite Ha2 in Hx. rewrite Hc2.
    destruct (disconnect_agent_keys
      (mkState (agents s) (controllers s) (pairingCodes s) (sid :: closed s)) sid x)
      as (Hc1 & _ & Ha1).
    rewrite Hc1. rewrite Ha1 in Hx. simpl in *.
    apply andb_prop in Hx. destruct Hx as [_ Hx]. rewrite (Hinv x Hx). apply andb_false_r.
  - destruct (sweep_state _ _ _ _ Hh) as (Ha & Hc & _). unfold roles_inv. rewrite Ha, Hc. exact Hinv.
Qed.


(** * C7: pairing codes per controller *)

Lemma In_set {V} (m : JsMap.t V) k v k' v' :
  In (k', v') (JsMap.set m k v) -> In (k', v') m \/ v' = v.
Proof.
  induction m as [|[k0 v0] r IH]; simpl.
  - intros [[= _ <-]|[]]. auto.
  - destruct (String.eqb k k0); simpl.
    + intros [[= _ <-]|H]; auto.
    + intros [H|H]; [auto|]. destruct (IH H); auto.
Qed.

Lemma owned_set pc k v cid :
  List.length (owned_codes (JsMap.set pc k v) cid)
  <= List.length (owned_codes pc cid) + (if String.eqb (p_controllerId v) cid then 1 else 0).
Proof.
  unfold owned_codes. induction pc as [|[k0 v0] r IH]; simpl.
  - destruct (String.eqb _ cid); simpl; lia.
  - destruct (String.eqb k k0); simpl.
    + destruct (String.eqb (p_controllerId v) cid), (String.eqb (p_controllerId v0) cid);
        simpl; lia.
    + destruct (String.eqb (p_controllerId v0) cid); simpl; lia.
Qed.

Lemma owned_filter pc f cid :
  List.length (owned_codes (filter f pc) cid) <= List.length (owned_codes pc cid).
Proof.
  unfold owned_codes. induction pc as [|kv r IH]; simpl; [lia|].
  destruct (f kv); simpl; destruct (String.eqb (p_controllerId (snd kv)) cid); simpl; lia.
Qed.

Lemma owned_none pc cid :
  (forall k p, In (k, p) pc -> p_controllerId p <> cid) -> owned_codes pc cid = [].
Proof.
  unfold owned_codes. induction pc as [|[k0 v0] r IH]; simpl; [reflexivity|].
  intros H. destruct (String.eqb_spec (p_controllerId v0) cid) as [E|].
  - exfalso. exact (H k0 v0 (or_introl eq_refl) E).
  - apply IH. intros k p Hin. exact (H k p (or_intror Hin)).
Qed.

Lemma codes_step s e s' out :
  codes_inv s -> controller_rereg s e = false -> step s e = Done s' out -> codes_inv s'.
Proof.
  intros [Hown Hcnt] Hb H.
  destruct (step_shapes _ _ _ _ H) as
    [->|[(sid & info & rnd & now & -> & _ & Hh)|[(sid & d & -> & _ & Hh)|[(sid & -> & _ & Hh)|(now & -> & Hh)]]]].
  - split; assumption.
  - unfold on_controller_register in Hh. injection Hh as <- _. unfold codes_inv. simpl in Hb |- *. split.
    + intros k p Hin. rewrite has_set. destruct (In_set _ _ _ _ _ Hin) as [Hin' | ->].
      * rewrite (Hown _ _ Hin'). apply orb_true_r.
      * simpl. rewrite String.eqb_refl. reflexivity.
    + intros cid. pose proof (owned_set (pairingCodes s) (generateCode rnd) (mkPairing sid now) cid) as Hs.
      simpl in Hs. destruct (String.eqb_spec sid cid) as [E0|].
      * rewrite <- E0 in Hs |- *.
        rewrite (owned_none (pairingCodes s) sid) in Hs; [simpl in Hs; lia|].
        intros k p Hin E. rewrite <- E, (Hown _ _ Hin) in Hb. discriminate.
      * specialize (Hcnt cid). lia.
  - destruct (agent_register_fail _ _ _ _ _ Hh) as [->|(p & c & _ & Ec & ->)]; [split; assumption|].
    unfold codes_inv. simpl. split; [|exact Hcnt].
    intros k q Hin. rewrite has_set, (Hown _ _ Hin). apply orb_true_r.
  - rewrite on_disconnect_shape in Hh. cbv zeta in Hh. injection Hh as <- _.
    set (s1 := fst (disconnect_agent
      (mkState (agents s) (controllers s) (pairingCodes s) (sid :: closed s)) sid)).
    assert (Hk1 : forall x, JsMap.has (controllers s1) x = JsMap.has (controllers s) x)
      by (intros x; exact (proj1 (disconnect_agent_keys _ sid x))).
    assert (Hp1 : pairingCodes s1 = pairingCodes s)
      by (exact (proj1 (proj2 (disconnect_agent_keys _ sid sid)))).
    pose proof (fun x => disconnect_controller_keys s1 sid x) as Hk2.
    destruct (Hk2 sid) as (_ & _ & Hp2). rewrite Hp1 in Hp2. split.
    + intros k p Hin. destruct (Hk2 (p_controllerId p)) as (_ & -> & _). rewrite Hk1.
      rewrite Hp2 in Hin. destruct (JsMap.has (controllers s1) sid) eqn:Hs1.
      * apply filter_In in Hin. destruct Hin as [Hin Hne]. simpl in Hne.
        rewrite Hne, (Hown _ _ Hin). reflexivity.
      * rewrite (Hown _ _ Hin), andb_true_r.
        destruct (String.eqb_spec (p_controllerId p) sid) as [E|]; [|reflexivity].
        pose proof (Hown _ _ Hin) as Hc. rewrite <- Hk1, E in Hc. congruence.
    + intros cid. rewrite Hp2. destruct (JsMap.has _ sid); [|exact (Hcnt cid)].
      etransitivity; [apply owned_filter|exact (Hcnt cid)].
  - destruct (sweep_state _ _ _ _ Hh) as (_ & Hc & _ & f & Hp).
    unfold codes_inv. rewrite Hp, Hc. split.
    + intros k p Hin. apply filter_In in Hin. exact (Hown _ _ (proj1 Hin)).
    + intros cid. etransitivity; [apply owned_filter|exact (Hcnt cid)].
Qed.


(** The first half of [codes_inv] needs no restriction on the run. *)
Lemma live_step s e s' out : live_codes s -> step s e = Done s' out -> live_codes s'.
Proof.
  intros Hown H.
  destruct (step_shapes _ _ _ _ H) as
    [->|[(sid & info & rnd & now & -> & _ & Hh)|[(sid & d & -> & _ & Hh)|[(sid & -> & _ & Hh)|(now & -> & Hh)]]]].
  - exact Hown.
  - unfold on_controller_register in Hh. injection Hh as <- _. unfold live_codes. simpl.
    intros k p Hin. rewrite has_set. destruct (In_set _ _ _ _ _ Hin) as [Hin' | ->].
    + rewrite (Hown _ _ Hin'). apply orb_true_r.
    + simpl. rewrite String.eqb_refl. reflexivity.
  - destruct (agent_register_fail _ _ _ _ _ Hh) as [->|(p & c & _ & Ec & ->)]; [exact Hown|].
    unfold live_codes. simpl. intros k q Hin. rewrite has_set, (Hown _ _ Hin). apply orb_true_r.
  - rewrite on_disconnect_shape in Hh. cbv zeta in Hh. injection Hh as <- _.
    set (s1 := fst (disconnect_agent
      (mkState (agents s) (controllers s) (pairingCodes s) (sid :: closed s)) sid)).
    assert (Hk1 : forall x, JsMap.has (controllers s1) x = JsMap.has (controllers s) x)
      by (intros x; exact (proj1 (disconnect_agent_keys _ sid x))).
    assert (Hp1 : pairingCodes s1 = pairingCodes s)
      by (exact (proj1 (proj2 (disconnect_agent_keys _ sid sid)))).
    pose proof (fun x => disconnect_controller_keys s1 sid x) as Hk2.
    destruct (Hk2 sid) as (_ & _ & Hp2). rewrite Hp1 in Hp2.
    intros k p Hin. destruct (Hk2 (p_controllerId p)) as (_ & -> & _). rewrite Hk1.
    rewrite Hp2 in Hin. destruct (JsMap.has (controllers s1) sid) eqn:Hs1.
    + apply filter_In in Hin. destruct Hin as [Hin Hne]. simpl in Hne.
      rewrite Hne, (Hown _ _ Hin). reflexivity.
    + rewrite (Hown _ _ Hin), andb_true_r.
      destruct (String.eqb_spec (p_controllerId p) sid) as [E|]; [|reflexivity].
      pose proof (Hown _ _ Hin) as Hc. rewrite <- Hk1, E in Hc. congruence.
  - destruct (sweep_state _ _ _ _ Hh) as (_ & Hc & _ & f & Hp).
    unfold live_codes. rewrite Hp, Hc.
    intros k p Hin. apply filter_In in Hin. exact (Hown _ _ (proj1 Hin)).
Qed.

(** * Every [agentIds] set is duplicate-free *)

Lemma NoDup_set_add l x : NoDup l -> NoDup (JsSet.add l x).
Proof.
  unfold JsSet.add, JsSet.has. destruct (existsb (String.eqb x) l) eqn:E; [auto|].
  intros Hl. apply NoDup_app; [exact Hl|constructor; [intros []|constructor]|].
  intros y Hy [Hxy|[]]. subst y. assert (existsb (String.eqb x) l = true) as Hc.
  { apply existsb_exists. exists x. split; [exact Hy|apply String.eqb_refl]. }
  congruence.
Qed.

Lemma NoDup_set_delete l x : NoDup l -> NoDup (JsSet.delete l x).
Proof. apply NoDup_filter. Qed.

Lemma sets_step s e s' out : sets_inv s -> step s e = Done s' out -> sets_inv s'.
Proof.
  intros Hinv H.
  destruct (step_shapes _ _ _ _ H) as
    [->|[(sid & info & rnd & now & -> & _ & Hh)|[(sid & d & -> & _ & Hh)|[(sid & -> & _ & Hh)|(now & -> & Hh)]]]].
  - exact Hinv.
  - unfold on_controller_register in Hh. injection Hh as <- _.
    intros cid c Hc. simpl in Hc. map_simpl.
    destruct (String.eqb cid sid); [injection Hc as <-; constructor|exact (Hinv _ _ Hc)].
  - destruct (agent_register_fail _ _ _ _ _ Hh) as [->|(p & c & _ & Ec & ->)]; [exact Hinv|].
    intros cid c' Hc. simpl in Hc. map_simpl.
    destruct (String.eqb cid (p_controllerId p));
      [injection Hc as <-; apply NoDup_set_add; exact (Hinv _ _ Ec)|exact (Hinv _ _ Hc)].
  - rewrite on_disconnect_shape in Hh. cbv zeta in Hh. injection Hh as <- _.
    assert (H1 : sets_inv (fst (disconnect_agent
      (mkState (agents s) (controllers s) (pairingCodes s) (sid :: closed s)) sid))).
    { rewrite disconnect_agent_shape. simpl.
      destruct (JsMap.get (agents s) sid) as [a|]; [|exact Hinv].
      destruct (JsMap.get (controllers s) (a_controllerId a)) as [c0|] eqn:Ec; [|exact Hinv].
      intros cid c Hc. simpl in Hc. map_simpl.
      destruct (String.eqb cid (a_controllerId a));
        [injection Hc as <-; apply NoDup_set_delete; exact (Hinv _ _ Ec)|exact (Hinv _ _ Hc)]. }
    revert H1. generalize (fst (disconnect_agent
      (mkState (agents s) (controllers s) (pairingCodes s) (sid :: closed s)) sid)) as s1.
    intros s1 H1. unfold disconnect_controller.
    destruct (JsMap.get (controllers s1) sid) as [cs|]; [|exact H1].
    intros cid c Hc. simpl in Hc. map_simpl.
    destruct (String.eqb cid sid); [discriminate|exact (H1 _ _ Hc)].
  - destruct (sweep_state _ _ _ _ Hh) as (_ & Hc & _). unfold sets_inv. rewrite Hc. exact Hinv.
Qed.


Lemma run_sets es s out : run init es = Some (s, out) -> sets_inv s.
Proof.
  intros H. apply (run_invariant sets_inv no_bad) with (es := es) (s := init) (out := out).
  - intros s0 e s' o Hs _ Hst. exact (sets_step _ _ _ _ Hs Hst).
  - intros cid c Hc. discriminate.
  - apply avoids_no_bad.
  - exact H.
Qed.

(** * Helpers for the disconnect and code claims *)

Lemma notify_agents_map ags l :
  notify_agents ags l
  = map (fun x => mkEmit x "agent:controller-disconnected" VUndef)
        (filter (fun x => JsMap.has ags x) l).
Proof.
  unfold notify_agents, JsMap.has. induction l as [|x r IH]; simpl; [reflexivity|].
  destruct (JsMap.get ags x); simpl; rewrite IH; reflexivity.
Qed.

Lemma filter_set_delete (f : Id -> bool) l c :
  (forall x, f x = true -> x <> c) -> filter f (JsSet.delete l c) = filter f l.
Proof.
  intros Hf. unfold JsSet.delete. induction l as [|x r IH]; simpl; [reflexivity|].
  destruct (String.eqb_spec c x) as [->|]; simpl.
  - destruct (f x) eqn:E; [exfalso; exact (Hf x E eq_refl)|exact IH].
  - destruct (f x); [f_equal|]; exact IH.
Qed.

(** Controller [c]'s record after the agent half of [c]'s own disconnect. *)
Lemma disconnect_agent_own_record s c cr :
  JsMap.get (controllers s) c = Some cr ->
  exists cr1, JsMap.get (controllers (fst (disconnect_agent s c))) c = Some cr1 /\
    (c_agentIds cr1 = c_agentIds cr \/ c_agentIds cr1 = JsSet.delete (c_agentIds cr) c).
Proof.
  intros Hc. rewrite disconnect_agent_shape.
  destruct (JsMap.get (agents s) c) as [a|]; [|simpl; eauto].
  destruct (JsMap.get (controllers s) (a_controllerId a)) as [c0|] eqn:Ec; simpl; [|eauto].
  rewrite JsMapFacts.get_set. destruct (String.eqb_spec c (a_controllerId a)) as [E|].
  - rewrite <- E, Hc in Ec. injection Ec as <-. eexists; split; [reflexivity|]. right; reflexivity.
  - eauto.
Qed.

Lemma disconnect_agent_emits s c :
  filter (fun e => String.eqb (e_event e) "agent:controller-disconnected")
    (snd (disconnect_agent s c)) = [].
Proof.
  rewrite disconnect_agent_shape.
  destruct (JsMap.get (agents s) c) as [a|]; [|reflexivity].
  destruct (JsMap.get (controllers s) _); reflexivity.
Qed.

Lemma filter_notify_event l :
  filter (fun e => String.eqb (e_event e) "agent:controller-disconnected")
    (map (fun x => mkEmit x "agent:controller-disconnected" VUndef) l)
  = map (fun x => mkEmit x "agent:controller-disconnected" VUndef) l.
Proof. induction l as [|x r IH]; simpl; [reflexivity|]. rewrite IH. reflexivity. Qed.

(** Length of the decimal rendering. *)
Lemma digits_aux_length k : forall fuel n acc,
  (k < fuel)%nat -> (10 ^ Z.of_nat k <= n < 10 ^ Z.of_nat (S k))%Z ->
  String.length (digits_aux fuel n acc) = (S k + String.length acc)%nat.
Proof.
  induction k as [|k IH]; intros [|f] n acc Hf Hn; try lia; simpl.
  - simpl in Hn. rewrite (Z.div_small n 10) by lia. reflexivity.
  - assert (Hq : (10 ^ Z.of_nat k <= n / 10 < 10 ^ Z.of_nat (S k))%Z).
    { rewrite !Nat2Z.inj_succ, !Z.pow_succ_r in Hn by lia. rewrite Nat2Z.inj_succ, Z.pow_succ_r by lia.
      split; [apply Z.div_le_lower_bound; lia|apply Z.div_lt_upper_bound; lia]. }
    assert (Hpos : (0 < 10 ^ Z.of_nat k)%Z) by (apply Z.pow_pos_nonneg; lia).
    destruct (Z.eqb_spec (n / 10) 0) as [E|]; [lia|].
    rewrite (IH f); [simpl; lia|lia|exact Hq].
Qed.

Lemma generateCode_length rnd :
  (0 <= rnd < 900000)%Z -> String.length (generateCode rnd) = 6%nat.
Proof.
  intros H. unfold generateCode, z_to_string.
  destruct (Z.ltb_spec (100000 + rnd) 0); [lia|].
  rewrite (digits_aux_length 5); [reflexivity|lia|].
  change (10 ^ Z.of_nat 5)%Z with 100000%Z. change (10 ^ Z.of_nat 6)%Z with 1000000%Z. lia.
Qed.

Ltac avoids_tac := vm_compute; repeat (split || reflexivity || exact I).

(** * The claims *)

(** Claim C1 (amended): every id in a live controller's [agentIds] is a key
    of [agents] whose [controllerId] is that controller, after every run
    from the empty registry in which no connection that is already an agent
    sends [agent:register] again. *)
Theorem agentIds_consistent es s out :
  avoids agent_rereg init es -> run init es = Some (s, out) -> assoc_inv s.
Proof.
  intros Hav Hrun. apply (run_invariant assoc_inv agent_rereg) with (es := es) (s := init) (out := out).
  - exact assoc_step.
  - intros cid c Hc. discriminate.
  - exact Hav.
  - exact Hrun.
Qed.

Lemma agentIds_consistent_witness :
  avoids agent_rereg init scen_pair /\ assoc_inv (state_of (run init scen_pair)).
Proof.
  split; [avoids_tac|].
  apply (agentIds_consistent scen_pair _ (outs_of (run init scen_pair))).
  - avoids_tac.
  - vm_compute. reflexivity.
Defined.

(** Claim C1, as stated, fails: after [scen_move] controller A's [agentIds]
    still lists X, whose entry now names controller B. *)
Lemma agentIds_consistent_counterexample :
  run init scen_move <> None /\ ~ assoc_inv (state_of (run init scen_move)).
Proof.
  split; [vm_compute; discriminate|]. intros H.
  assert (E : JsMap.get (controllers (state_of (run init scen_move))) "A"
              = Some (mkController VUndef "100000" ["X"])) by (vm_compute; reflexivity).
  destruct (H "A" _ E "X" (or_introl eq_refl)) as (a & Ea & Hc).
  vm_compute in Ea. injection Ea as <-. vm_compute in Hc. discriminate.
Qed.

Lemma disconnect_agent_other s c x :
  x <> c -> JsMap.get (agents (fst (disconnect_agent s c))) x = JsMap.get (agents s) x.
Proof.
  intros Hne. rewrite disconnect_agent_shape.
  assert (Hd : JsMap.get (JsMap.delete (agents s) c) x = JsMap.get (agents s) x).
  { rewrite JsMapFacts.get_delete. apply String.eqb_neq in Hne. rewrite Hne. reflexivity. }
  destruct (JsMap.get (agents s) c) as [a|]; [|reflexivity].
  destruct (JsMap.get (controllers s) _); exact Hd.
Qed.

Lemma disconnect_agent_closed s c : closed (fst (disconnect_agent s c)) = closed s.
Proof.
  rewrite disconnect_agent_shape. destruct (JsMap.get (agents s) c); [|reflexivity].
  destruct (JsMap.get (controllers s) _); reflexivity.
Qed.

Lemma disconnect_controller_closed s c : closed (fst (disconnect_controller s c)) = closed s.
Proof. unfold disconnect_controller. destruct (JsMap.get (controllers s) c); reflexivity. Qed.

(** Claim C2 (amended): when controller [c] disconnects, every other agent
    entry is kept unchanged (its [controllerId] still names [c]), [c]
    leaves [controllers] and sends nothing more, each registered agent of
    [c]'s [agentIds] is sent [agent:controller-disconnected], and
    agent-to-controller messages of an agent still naming [c] are dropped. *)
Theorem controller_disconnect_voids s c cr s' out :
  connected s c = true -> JsMap.get (controllers s) c = Some cr ->
  step s (EvDisconnect c) = Done s' out ->
  (forall x, x <> c -> JsMap.get (agents s') x = JsMap.get (agents s) x) /\
  JsMap.get (controllers s') c = None /\
  (forall e, sender e = Some c -> step s' e = Done s' []) /\
  (forall x, In x (c_agentIds cr) -> x <> c -> JsMap.has (agents s) x = true ->
     In (mkEmit x "agent:controller-disconnected" VUndef) out) /\
  (forall x a ev d, JsMap.get (agents s') x = Some a -> a_controllerId a = c ->
     step s' (EvAgentMsg x ev d) = Done s' []).
Proof.
  intros Hconn Hc Hstep. unfold step in Hstep. cbn [sender] in Hstep.
  rewrite Hconn in Hstep. cbn [negb] in Hstep.
  rewrite on_disconnect_shape in Hstep. cbv zeta in Hstep. injection Hstep as <- <-.
  set (s0 := mkState (agents s) (controllers s) (pairingCodes s) (c :: closed s)).
  assert (Hc0 : JsMap.get (controllers s0) c = Some cr) by exact Hc.
  destruct (disconnect_agent_own_record s0 c cr Hc0) as (cr1 & Hcr1 & Hids).
  set (s1 := fst (disconnect_agent s0 c)) in *.
  assert (Hag : forall x, x <> c -> JsMap.get (agents s1) x = JsMap.get (agents s) x)
    by (intros x Hx; exact (disconnect_agent_other s0 c x Hx)).
  assert (Hs' : fst (disconnect_controller s1 c)
                = mkState (agents s1) (JsMap.delete (controllers s1) c)
                    (filter (fun kv => negb (String.eqb (p_controllerId (snd kv)) c)) (pairingCodes s1))
                    (closed s1))
    by (unfold disconnect_controller; rewrite Hcr1; reflexivity).
  assert (Hcl : closed s1 = c :: closed s) by apply disconnect_agent_closed.
  assert (Hgone : JsMap.get (controllers (fst (disconnect_controller s1 c))) c = None).
  { rewrite Hs'. simpl. rewrite JsMapFacts.get_delete, String.eqb_refl. reflexivity. }
  assert (Hoff : connected (fst (disconnect_controller s1 c)) c = false).
  { unfold connected. rewrite Hs'. simpl. rewrite Hcl. simpl. rewrite String.eqb_refl. reflexivity. }
  split; [|split; [exact Hgone|split; [|split]]].
  - intros x Hx. rewrite Hs'. simpl. exact (Hag x Hx).
  - intros e He. unfold step. rewrite He, Hoff. reflexivity.
  - intros x Hin Hx Hhas. apply in_or_app. right.
    unfold disconnect_controller. rewrite Hcr1. simpl. rewrite notify_agents_map.
    apply in_map_iff. exists x. split; [reflexivity|]. apply filter_In. split.
    + destruct Hids as [-> | ->]; [exact Hin|].
      unfold JsSet.delete. apply filter_In. split; [exact Hin|].
      destruct (String.eqb_spec c x); [congruence|reflexivity].
    + unfold JsMap.has in *. rewrite (Hag x Hx). exact Hhas.
  - intros x a ev d Ha Hac. unfold step. cbn [sender].
    destruct (connected _ x); cbn [negb]; [|reflexivity].
    destruct (listed agentEvents ev); [|reflexivity].
    unfold on_agent_msg. rewrite Ha, Hac, Hgone. reflexivity.
Qed.

Lemma controller_disconnect_voids_witness :
  JsMap.get (agents (state_of (run init scen_orphan))) "X"
  = JsMap.get (agents (state_of (run init (firstn 2 scen_orphan)))) "X".
Proof.
  destruct (controller_disconnect_voids (state_of (run init (firstn 2 scen_orphan))) "A"
              (mkController VUndef "100000" ["X"])
              (state_of (run init scen_orphan))
              [mkEmit "X" "agent:controller-disconnected" VUndef])
    as [H _].
  - vm_compute. reflexivity.
  - vm_compute. reflexivity.
  - vm_compute. reflexivity.
  - apply H. discriminate.
Defined.

(** Claim C2, as stated, fails: after [scen_orphan] agent X is still
    registered and its [controllerId] names A, which is no longer a key of
    [controllers]. *)
Lemma controller_disconnect_voids_counterexample :
  exists x a, JsMap.get (agents (state_of (run init scen_orphan))) x = Some a /\
    JsMap.has (controllers (state_of (run init scen_orphan))) (a_controllerId a) = false.
Proof.
  exists "X", (mkAgent (VObj [("hostname", VStr "X")]) "A").
  split; vm_compute; reflexivity.
Qed.

(** Claim C3: every message forwarded for an agent event carries, as its
    [agentId] property, the id of the sending connection, whatever the
    sender's payload held; the registry is left as it was. *)
Theorem agent_msg_origin s sid ev data s' out e :
  step s (EvAgentMsg sid ev data) = Done s' out -> In e out ->
  s' = s /\ exists fs, e_payload e = VObj fs /\ obj_get fs "agentId" = VStr sid.
Proof.
  unfold step. cbn [sender].
  destruct (connected s sid); cbn [negb]; [|intros [= <- <-] []].
  destruct (listed agentEvents ev); [|intros [= <- <-] []].
  unfold on_agent_msg.
  destruct (JsMap.get (agents s) sid) as [a|]; [|intros [= <- <-] []].
  destruct (JsMap.get (controllers s) (a_controllerId a)); [|intros [= <- <-] []].
  destruct (connected s (a_controllerId a)); [|intros [= <- <-] []].
  intros [= <- <-] [<-|[]]. split; [reflexivity|].
  eexists; split; [reflexivity|]. unfold obj_get, obj_set.
  rewrite JsMapFacts.get_set, String.eqb_refl. reflexivity.
Qed.

Lemma agent_msg_origin_witness :
  exists fs, e_payload (mkEmit "A" "agent:frame" (VObj [("agentId", VStr "X"); ("img", VNum 1)]))
             = VObj fs /\ obj_get fs "agentId" = VStr "X".
Proof.
  destruct (agent_msg_origin (state_of (run init (firstn 2 scen_pair))) "X" "agent:frame"
              spoofed_frame (state_of (run init (firstn 2 scen_pair)))
              [mkEmit "A" "agent:frame" (VObj [("agentId", VStr "X"); ("img", VNum 1)])]
              (mkEmit "A" "agent:frame" (VObj [("agentId", VStr "X"); ("img", VNum 1)])))
    as [_ H].
  - vm_compute. reflexivity.
  - left. reflexivity.
  - exact H.
Defined.

(** Claim C4: an [agent:register] whose [code] is not a key of
    [pairingCodes] gets the "Invalid pairing code" error and leaves the
    registry unchanged; one whose code names a controller that is not in
    [controllers] gets "Controller not found", also with no change. *)
Theorem agent_register_errors s sid data :
  connected s sid = true -> data <> VUndef -> data <> VNull ->
  (JsMap.get_v (pairingCodes s) (get_field data "code") = None ->
   step s (EvAgentRegister sid data)
   = Done s [mkEmit sid "agent:error" (VObj [("error", VStr "Invalid pairing code")])]) /\
  (forall p, JsMap.get_v (pairingCodes s) (get_field data "code") = Some p ->
   JsMap.get (controllers s) (p_controllerId p) = None ->
   step s (EvAgentRegister sid data)
   = Done s [mkEmit sid "agent:error" (VObj [("error", VStr "Controller not found")])]).
Proof.
  intros Hc Hu Hn. unfold step. cbn [sender]. rewrite Hc. cbn [negb].
  unfold on_agent_register.
  split; [intros Hp | intros p Hp Hctl];
    destruct data; try congruence; rewrite Hp; try rewrite Hctl; reflexivity.
Qed.

Lemma agent_register_errors_witness :
  step init (join "X" "999999")
  = Done init [mkEmit "X" "agent:error" (VObj [("error", VStr "Invalid pairing code")])] /\
  step dangling_code_state (join "X" "123456")
  = Done dangling_code_state
      [mkEmit "X" "agent:error" (VObj [("error", VStr "Controller not found")])].
Proof.
  split.
  - apply (proj1 (agent_register_errors init "X" (reg_data "999999" "X")
             ltac:(reflexivity) ltac:(discriminate) ltac:(discriminate))).
    reflexivity.
  - apply (proj2 (agent_register_errors dangling_code_state "X" (reg_data "123456" "X")
             ltac:(reflexivity) ltac:(discriminate) ltac:(discriminate))
             (mkPairing "A" 0)); reflexivity.
Defined.

(** Claim C5 (amended): in every state reached from the empty registry,
    disconnecting controller [c] emits [agent:controller-disconnected]
    exactly once to each id of [c]'s [agentIds] that is a registered agent
    other than [c] itself, in set order and to no one else, and afterwards
    no pairing code resolves to [c]. *)
Theorem controller_disconnect_count es s0 out0 c cr s' out :
  run init es = Some (s0, out0) ->
  connected s0 c = true -> JsMap.get (controllers s0) c = Some cr ->
  step s0 (EvDisconnect c) = Done s' out ->
  let notified := filter (fun x => JsMap.has (agents s0) x && negb (String.eqb x c))
                    (c_agentIds cr) in
  filter (fun e => String.eqb (e_event e) "agent:controller-disconnected") out
  = map (fun x => mkEmit x "agent:controller-disconnected" VUndef) notified /\
  NoDup notified /\
  (forall k p, resolve s' k = Some p -> p_controllerId p <> c).
Proof.
  intros Hrun Hconn Hc Hstep notified.
  pose proof (run_sets _ _ _ Hrun c cr Hc) as Hnd.
  unfold step in Hstep. cbn [sender] in Hstep. rewrite Hconn in Hstep. cbn [negb] in Hstep.
  rewrite on_disconnect_shape in Hstep. cbv zeta in Hstep. injection Hstep as <- <-.
  set (s1 := mkState (agents s0) (controllers s0) (pairingCodes s0) (c :: closed s0)).
  assert (Hc1 : JsMap.get (controllers s1) c = Some cr) by exact Hc.
  destruct (disconnect_agent_own_record s1 c cr Hc1) as (cr2 & Hcr2 & Hids).
  assert (Hhas : forall x, JsMap.has (agents (fst (disconnect_agent s1 c))) x
                           = JsMap.has (agents s0) x && negb (String.eqb x c)).
  { intros x. destruct (String.eqb_spec x c) as [->|Hne].
    - rewrite andb_false_r. rewrite (proj2 (proj2 (disconnect_agent_keys s1 c c))).
      simpl. destruct (JsMap.has (agents s0) c) eqn:E; simpl; [rewrite String.eqb_refl; reflexivity|reflexivity].
    - unfold JsMap.has. rewrite (disconnect_agent_other s1 c x Hne). simpl. rewrite andb_true_r. reflexivity. }
  assert (Hnot : filter (fun x => JsMap.has (agents (fst (disconnect_agent s1 c))) x) (c_agentIds cr2)
                 = notified).
  { rewrite (filter_ext _ _ Hhas). subst notified. destruct Hids as [-> | ->]; [reflexivity|].
    apply filter_set_delete. intros x Hx ->. rewrite String.eqb_refl, andb_false_r in Hx. discriminate. }
  split; [|split].
  - rewrite filter_app, disconnect_agent_emits. simpl.
    unfold disconnect_controller. rewrite Hcr2. simpl. rewrite notify_agents_map, Hnot.
    apply filter_notify_event.
  - apply NoDup_filter. exact Hnd.
  - intros k p. unfold resolve, disconnect_controller. rewrite Hcr2. simpl.
    intros Hk. apply JsMapFacts.get_filter in Hk. simpl in Hk.
    destruct (String.eqb_spec (p_controllerId p) c); [discriminate|assumption].
Qed.

Lemma controller_disconnect_count_witness :
  exists s', step after_pair (EvDisconnect "A") = Done s' notices_XY /\
    filter (fun e => String.eqb (e_event e) "agent:controller-disconnected") notices_XY
    = notices_XY.
Proof.
  assert (Hs : step after_pair (EvDisconnect "A")
               = Done (state_of (run after_pair [EvDisconnect "A"])) notices_XY)
    by (vm_compute; reflexivity).
  exists (state_of (run after_pair [EvDisconnect "A"])). split; [exact Hs|].
  destruct (controller_disconnect_count scen_pair after_pair (outs_of (run init scen_pair))
              "A" (mkController VUndef "100000" ["X"; "Y"])
              (state_of (run after_pair [EvDisconnect "A"])) notices_XY
              ltac:(vm_compute; reflexivity) ltac:(vm_compute; reflexivity)
              ltac:(vm_compute; reflexivity) Hs) as [H _].
  rewrite H. vm_compute. reflexivity.
Defined.

(** Claim C5, as stated, fails: after [scen_collide] the code first issued
    to A was re-issued to B, and once A disconnects it still resolves. *)
Lemma controller_disconnect_count_counterexample :
  exists cr s' out,
    JsMap.get (controllers (state_of (run init scen_collide))) "A" = Some cr /\
    step (state_of (run init scen_collide)) (EvDisconnect "A") = Done s' out /\
    resolve s' (c_code cr) = Some (mkPairing "B" 0).
Proof.
  eexists _, _, _. split; [vm_compute; reflexivity|]. split; vm_compute; reflexivity.
Qed.

(** Claim C6 (amended): no connection is both a key of [agents] and of
    [controllers] after any run from the empty registry in which no
    connection registered in one role sends the other role's register
    message (the handlers themselves do not check roles). *)
Theorem roles_disjoint es s out :
  avoids role_switch init es -> run init es = Some (s, out) -> roles_inv s.
Proof.
  intros Hav Hrun. apply (run_invariant roles_inv role_switch) with (es := es) (s := init) (out := out).
  - exact roles_step.
  - intros x Hx. discriminate.
  - exact Hav.
  - exact Hrun.
Qed.

Lemma roles_disjoint_witness :
  avoids role_switch init scen_pair /\ roles_inv (state_of (run init scen_pair)).
Proof.
  split; [avoids_tac|].
  apply (roles_disjoint scen_pair _ (outs_of (run init scen_pair))).
  - avoids_tac.
  - vm_compute. reflexivity.
Defined.

(** Claim C6, as stated, fails: after [scen_both] connection A is in both maps. *)
Lemma roles_disjoint_counterexample :
  JsMap.has (agents (state_of (run init scen_both))) "A" = true /\
  JsMap.has (controllers (state_of (run init scen_both))) "A" = true.
Proof. split; vm_compute; reflexivity. Qed.

(** Claim C7 (amended): after any run from the empty registry, each code is
    one key of [pairingCodes] and so maps to one controller, and every
    code's controller is a live controller; and no controller owns more than
    one code, after any such run in which no controller sends
    [controller:register] twice. *)
Theorem codes_per_controller es s out :
  run init es = Some (s, out) ->
  live_codes s /\
  (forall k p p', resolve s k = Some p -> resolve s k = Some p' -> p = p') /\
  (avoids controller_rereg init es -> codes_inv s).
Proof.
  intros Hrun. split; [|split].
  - apply (run_invariant live_codes no_bad) with (es := es) (s := init) (out := out).
    + intros s0 e s' o Hs _ Hst. exact (live_step _ _ _ _ Hs Hst).
    + intros k p [].
    + apply avoids_no_bad.
    + exact Hrun.
  - intros k p p' -> [= ->]. reflexivity.
  - intros Hav. apply (run_invariant codes_inv controller_rereg) with (es := es) (s := init) (out := out).
    + exact codes_step.
    + split; [intros k p []|intros cid; simpl; lia].
    + exact Hav.
    + exact Hrun.
Qed.

Lemma codes_per_controller_witness :
  live_codes (state_of (run init scen_twice)) /\
  avoids controller_rereg init scen_collide /\ codes_inv (state_of (run init scen_collide)).
Proof.
  split; [|split; [avoids_tac|]].
  - exact (proj1 (codes_per_controller scen_twice _ (outs_of (run init scen_twice))
             ltac:(vm_compute; reflexivity))).
  - exact (proj2 (proj2 (codes_per_controller scen_collide _ (outs_of (run init scen_collide))
             ltac:(vm_compute; reflexivity))) ltac:(avoids_tac)).
Defined.

(** Claim C7, as stated, fails: after [scen_twice] the live controller A
    owns two codes. *)
Lemma codes_per_controller_counterexample :
  JsMap.has (controllers (state_of (run init scen_twice))) "A" = true /\
  List.length (owned_codes (pairingCodes (state_of (run init scen_twice))) "A") = 2%nat.
Proof. split; vm_compute; reflexivity. Qed.

(** Claim C8 (amended): [controller:register] issues the decimal string of
    [100000 + rnd], six digits for [0 <= rnd < 900000], without consulting
    [pairingCodes]: afterwards that code resolves to the new controller
    (replacing any entry it had), and every other code resolves as before. *)
Theorem controller_register_code s sid info rnd now s' out :
  connected s sid = true -> step s (EvControllerRegister sid info rnd now) = Done s' out ->
  resolve s' (generateCode rnd) = Some (mkPairing sid now) /\
  (forall k, k <> generateCode rnd -> resolve s' k = resolve s k) /\
  JsMap.get (controllers s') sid = Some (mkController info (generateCode rnd) []) /\
  ((0 <= rnd < 900000)%Z -> String.length (generateCode rnd) = 6%nat).
Proof.
  intros Hc. unfold step. cbn [sender]. rewrite Hc. cbn [negb].
  unfold on_controller_register. intros [= <- _]. unfold resolve. simpl.
  rewrite !JsMapFacts.get_set, !String.eqb_refl.
  split; [reflexivity|split; [|split; [reflexivity|apply generateCode_length]]].
  intros k Hk. rewrite JsMapFacts.get_set. apply String.eqb_neq in Hk. rewrite Hk. reflexivity.
Qed.

Lemma controller_register_code_witness :
  resolve (state_of (run init scen_collide)) (generateCode 0) = Some (mkPairing "B" 0).
Proof.
  refine (proj1 (controller_register_code after_A "B" VUndef 0 0
                   (state_of (run init scen_collide)) (outs_of (run after_A [ctrl "B" 0]))
                   ltac:(vm_compute; reflexivity) ltac:(vm_compute; reflexivity))).
Defined.

(** Claim C8, as stated, fails: in [scen_collide] the code issued to B is the
    code A holds at that moment. *)
Lemma controller_register_code_counterexample :
  resolve after_A (generateCode 0) = Some (mkPairing "A" 0) /\
  exists s' out, step after_A (ctrl "B" 0) = Done s' out /\
    JsMap.get (controllers s') "B" = Some (mkController VUndef (generateCode 0) []).
Proof.
  split; [vm_compute; reflexivity|]. eexists _, _. split; vm_compute; reflexivity.
Qed.

(** Claim C9: a control event whose destination ([agentId], else
    [targetAgent]) is falsy, is not a key of [agents], or names a
    disconnected socket is dropped: no message, no registry change. *)
Theorem control_drop s sid ev data :
  let t := control_target data in
  truthy t = false \/ JsMap.get_v (agents s) t = None \/
  (exists k, t = VStr k /\ connected s k = false) ->
  step s (EvControl sid ev data) = Done s [].
Proof.
  intros t Ht. unfold step. cbn [sender].
  destruct (connected s sid); cbn [negb]; [|reflexivity].
  destruct (listed controlEvents ev); [|reflexivity].
  unfold on_control. fold t.
  destruct Ht as [-> | [Hn | (k & Hk & Hoff)]].
  - reflexivity.
  - rewrite Hn. destruct (truthy t); reflexivity.
  - rewrite Hk in *. simpl.
    destruct (negb (String.eqb k "")); [|reflexivity].
    destruct (JsMap.get (agents s) k); [|reflexivity]. rewrite Hoff. reflexivity.
Qed.

Lemma control_drop_witness :
  step after_pair (EvControl "A" "control:mouse" (VObj [("agentId", VStr "Q")]))
  = Done after_pair [].
Proof.
  apply (control_drop after_pair "A" "control:mouse" (VObj [("agentId", VStr "Q")])).
  right. left. vm_compute. reflexivity.
Defined.

(** Claim C10: the control relay does not look at the sender: for any
    connected sender, whatever its role, a control event whose destination
    is a live agent [k] is forwarded unchanged to [k], and the outcome is the
    same for every connected sender. *)
Theorem control_any_sender s sid sid' ev data k a :
  connected s sid = true -> connected s sid' = true ->
  listed controlEvents ev = true -> control_target data = VStr k -> k <> ""%string ->
  JsMap.get (agents s) k = Some a -> connected s k = true ->
  step s (EvControl sid ev data) = Done s [mkEmit k ev data] /\
  step s (EvControl sid ev data) = step s (EvControl sid' ev data).
Proof.
  intros Hc Hc' Hl Ht Hk Ha Hak.
  assert (H : forall x, connected s x = true ->
                step s (EvControl x ev data) = Done s [mkEmit k ev data]).
  { intros x Hx. unfold step. cbn [sender]. rewrite Hx. cbn [negb]. rewrite Hl.
    unfold on_control. rewrite Ht. simpl.
    apply String.eqb_neq in Hk. rewrite Hk. simpl. rewrite Ha, Hak. reflexivity. }
  rewrite (H sid Hc), (H sid' Hc'). split; reflexivity.
Qed.

Lemma control_any_sender_witness :
  step after_pair (EvControl "Y" "control:shell" (VObj [("targetAgent", VStr "X")]))
  = Done after_pair [mkEmit "X" "control:shell" (VObj [("targetAgent", VStr "X")])].
Proof.
  refine (proj1 (control_any_sender after_pair "Y" "Q" "control:shell"
                   (VObj [("targetAgent", VStr "X")]) "X" (mkAgent (VObj [("hostname", VStr "X")]) "A")
                   ltac:(vm_compute; reflexivity) ltac:(vm_compute; reflexivity)
                   ltac:(vm_compute; reflexivity) ltac:(vm_compute; reflexivity)
                   ltac:(discriminate) ltac:(vm_compute; reflexivity)
                   ltac:(vm_compute; reflexivity))).
Defined.

(** * Further properties of the relay *)

Lemma keys_set_in {V} (m : JsMap.t V) k v x :
  In x (map fst (JsMap.set m k v)) -> In x (map fst m) \/ x = k.
Proof.
  induction m as [|[k0 v0] r IH]; simpl.
  - intros [<-|[]]. auto.
  - destruct (String.eqb k k0); simpl; [tauto|].
    intros [<-|H]; [auto|]. destruct (IH H); auto.
Qed.

Lemma keys_set_nodup {V} (m : JsMap.t V) k v :
  NoDup (map fst m) -> NoDup (map fst (JsMap.set m k v)).
Proof.
  induction m as [|[k0 v0] r IH]; simpl; intros Hnd.
  - constructor; [intros []|constructor].
  - inversion Hnd as [|? ? Hn Hr]; subst.
    destruct (String.eqb_spec k k0) as [->|Hne]; simpl; [exact Hnd|].
    constructor; [|exact (IH Hr)].
    intros Hin. destruct (keys_set_in _ _ _ _ Hin); [contradiction|congruence].
Qed.

Lemma keys_filter_in {V} (m : JsMap.t V) f x :
  In x (map fst (filter f m)) -> In x (map fst m).
Proof.
  induction m as [|kv r IH]; simpl; [tauto|].
  destruct (f kv); simpl; [intros [<-|H]; auto|]; auto.
Qed.

Lemma keys_filter_nodup {V} (m : JsMap.t V) f :
  NoDup (map fst m) -> NoDup (map fst (filter f m)).
Proof.
  induction m as [|kv r IH]; simpl; intros Hnd; [constructor|].
  inversion Hnd as [|? ? Hn Hr]; subst.
  destruct (f kv); simpl; [|exact (IH Hr)].
  constructor; [|exact (IH Hr)]. intros Hin. exact (Hn (keys_filter_in _ _ _ Hin)).
Qed.

Lemma get_absent {V} (m : JsMap.t V) k : ~ In k (map fst m) -> JsMap.get m k = None.
Proof.
  induction m as [|[k0 v0] r IH]; simpl; [reflexivity|].
  intros Hn. destruct (String.eqb_spec k k0) as [->|]; [tauto|]. apply IH. tauto.
Qed.

(** [get] after keeping the entries satisfying [f], on unique keys. *)
Lemma get_filter_nodup {V} (m : JsMap.t V) f k :
  NoDup (map fst m) ->
  JsMap.get (filter f m) k =
  match JsMap.get m k with Some v => if f (k, v) then Some v else None | None => None end.
Proof.
  induction m as [|[k0 v0] r IH]; simpl; intros Hnd; [reflexivity|].
  inversion Hnd as [|? ? Hn Hr]; subst.
  destruct (String.eqb_spec k k0) as [->|Hne].
  - destruct (f (k0, v0)) eqn:Ef; simpl.
    + rewrite String.eqb_refl. reflexivity.
    + apply get_absent. intros Hin. exact (Hn (keys_filter_in _ _ _ Hin)).
  - destruct (f (k0, v0)); simpl; [|exact (IH Hr)].
    destruct (String.eqb_spec k k0); [congruence|exact (IH Hr)].
Qed.

Lemma keys_step s e s' out : keys_inv s -> step s e = Done s' out -> keys_inv s'.
Proof.
  intros (Ha & Hc & Hp) H.
  destruct (step_shapes _ _ _ _ H) as
    [->|[(sid & info & rnd & now & -> & _ & Hh)|[(sid & d & -> & _ & Hh)|[(sid & -> & _ & Hh)|(now & -> & Hh)]]]].
  - repeat split; assumption.
  - unfold on_controller_register in Hh. injection Hh as <- _.
    repeat split; simpl; try apply keys_set_nodup; assumption.
  - destruct (agent_register_fail _ _ _ _ _ Hh) as [->|(p & c & _ & Ec & ->)];
      [repeat split; assumption|].
    repeat split; simpl; try apply keys_set_nodup; assumption.
  - rewrite on_disconnect_shape in Hh. cbv zeta in Hh. injection Hh as <- _.
    set (s0 := mkState (agents s) (controllers s) (pairingCodes s) (sid :: closed s)).
    assert (H1 : keys_inv (fst (disconnect_agent s0 sid))).
    { rewrite disconnect_agent_shape. subst s0. simpl.
      destruct (JsMap.get (agents s) sid) as [a|]; [|repeat split; assumption].
      destruct (JsMap.get (controllers s) _); repeat split; simpl;
        try apply keys_set_nodup; try apply keys_filter_nodup; assumption. }
    revert H1. generalize (fst (disconnect_agent s0 sid)) as s1. intros s1 (H1a & H1c & H1p).
    unfold disconnect_controller. destruct (JsMap.get (controllers s1) sid);
      [|repeat split; assumption].
    repeat split; simpl; try apply keys_filter_nodup; assumption.
  - unfold sweep in Hh. injection Hh as <- _.
    repeat split; simpl; try apply keys_filter_nodup; assumption.
Qed.

Lemma run_keys es s out : run init es = Some (s, out) -> keys_inv s.
Proof.
  intros H. apply (run_invariant keys_inv no_bad) with (es := es) (s := init) (out := out).
  - intros s0 e s' o Hs _ Hst. exact (keys_step _ _ _ _ Hs Hst).
  - repeat split; constructor.
  - apply avoids_no_bad.
  - exact H.
Qed.

Lemma on_disconnect_facts s sid s' out :
  on_disconnect s sid = Done s' out ->
  closed s' = sid :: closed s /\
  (forall x a, JsMap.get (agents s') x = Some a -> JsMap.get (agents s) x = Some a) /\
  (forall y, JsMap.has (controllers s') y = negb (String.eqb y sid) && JsMap.has (controllers s) y).
Proof.
  rewrite on_disconnect_shape. cbv zeta. intros [= <- _].
  set (s0 := mkState (agents s) (controllers s) (pairingCodes s) (sid :: closed s)).
  split; [|split].
  - rewrite disconnect_controller_closed, disconnect_agent_closed. reflexivity.
  - intros x a. rewrite (proj1 (disconnect_controller_keys _ sid x)).
    rewrite disconnect_agent_shape. subst s0. simpl.
    destruct (JsMap.get (agents s) sid); [|auto].
    assert (Hd : JsMap.get (JsMap.delete (agents s) sid) x = Some a -> JsMap.get (agents s) x = Some a)
      by (rewrite JsMapFacts.get_delete; destruct (String.eqb x sid); [discriminate|auto]).
    destruct (JsMap.get (controllers s) _); exact Hd.
  - intros y. rewrite (proj1 (proj2 (disconnect_controller_keys _ sid y))).
    rewrite (proj1 (disconnect_agent_keys s0 sid y)). reflexivity.
Qed.

Lemma owner_step s e s' out : owner_inv s -> step s e = Done s' out -> owner_inv s'.
Proof.
  intros Hinv H.
  destruct (step_shapes _ _ _ _ H) as
    [->|[(sid & info & rnd & now & -> & _ & Hh)|[(sid & d & -> & _ & Hh)|[(sid & -> & _ & Hh)|(now & -> & Hh)]]]].
  - exact Hinv.
  - unfold on_controller_register in Hh. injection Hh as <- _.
    intros x a Ha. cbn [agents controllers] in *. rewrite has_set.
    change (connected _ ?y) with (connected s y).
    destruct (Hinv x a Ha) as [-> | ->]; [left; apply orb_true_r|right; reflexivity].
  - destruct (agent_register_fail _ _ _ _ _ Hh) as [->|(p & c & _ & Ec & ->)]; [exact Hinv|].
    intros x a Ha. cbn [agents controllers] in *. rewrite JsMapFacts.get_set in Ha. rewrite has_set.
    change (connected _ ?y) with (connected s y).
    destruct (String.eqb x sid).
    + injection Ha as <-. left. simpl. rewrite (has_get _ _ _ Ec). apply orb_true_r.
    + destruct (Hinv x a Ha) as [-> | ->]; [left; apply orb_true_r|right; reflexivity].
  - destruct (on_disconnect_facts _ _ _ _ Hh) as (Hcl & Hag & Hcs).
    intros x a Ha. rewrite Hcs. unfold connected. rewrite Hcl. simpl.
    destruct (String.eqb_spec (a_controllerId a) sid) as [->|Hne].
    + right. reflexivity.
    + destruct (Hinv x a (Hag x a Ha)) as [-> | Hoff]; [left; reflexivity|right].
      exact Hoff.
  - destruct (sweep_state _ _ _ _ Hh) as (Ha & Hc & Hcl & _).
    intros x a. unfold connected. rewrite Ha, Hc, Hcl. apply Hinv.
Qed.

Lemma run_owner es s out : run init es = Some (s, out) -> owner_inv s.
Proof.
  intros H. apply (run_invariant owner_inv no_bad) with (es := es) (s := init) (out := out).
  - intros s0 e s' o Hs _ Hst. exact (owner_step _ _ _ _ Hs Hst).
  - intros x a Ha. discriminate.
  - apply avoids_no_bad.
  - exact H.
Qed.

Lemma set_add_has l x : JsSet.has (JsSet.add l x) x = true.
Proof.
  unfold JsSet.add. destruct (JsSet.has l x) eqn:E; [exact E|].
  unfold JsSet.has. rewrite existsb_app. simpl. rewrite String.eqb_refl, orb_true_r. reflexivity.
Qed.

Lemma get_In_nodup {V} (m : JsMap.t V) k v :
  NoDup (map fst m) -> In (k, v) m -> JsMap.get m k = Some v.
Proof.
  induction m as [|[k0 v0] r IH]; simpl; intros Hnd Hin; [destruct Hin|].
  inversion Hnd as [|? ? Hn Hr]; subst.
  destruct Hin as [[= -> ->]|Hin].
  - rewrite String.eqb_refl. reflexivity.
  - destruct (String.eqb_spec k k0) as [->|]; [|exact (IH Hr Hin)].
    exfalso. apply Hn. apply in_map_iff. exists (k0, v). auto.
Qed.

Lemma run_app s es1 es2 :
  run s (app es1 es2) =
  match run s es1 with
  | Some (s1, o1) =>
      match run s1 es2 with Some (s2, o2) => Some (s2, app o1 o2) | None => None end
  | None => None
  end.
Proof.
  revert s. induction es1 as [|e r IH]; intros s; simpl.
  - destruct (run s es2) as [[s2 o2]|]; reflexivity.
  - destruct (step s e) as [s' out|]; [|reflexivity].
    rewrite IH. destruct (run s' r) as [[s1 o1]|]; [|reflexivity].
    destruct (run s1 es2) as [[s2 o2]|]; [|reflexivity].
    rewrite app_assoc. reflexivity.
Qed.

Lemma filter_none {A} (f : A -> bool) l :
  (forall x, In x l -> f x = false) -> filter f l = [].
Proof.
  induction l as [|x r IH]; simpl; intros H; [reflexivity|].
  rewrite (H x (or_introl eq_refl)). apply IH. auto.
Qed.

(** X1. The hourly sweep (lines 264-271), in a registry reached from the
    empty one: it sends nothing, leaves [agents] and [controllers] as they
    are, and a code resolves afterwards exactly when it resolved before to a
    pairing created no earlier than one hour before [now]. *)
Theorem sweep_expires es s out now s' out' :
  run init es = Some (s, out) -> step s (EvSweep now) = Done s' out' ->
  out' = [] /\ agents s' = agents s /\ controllers s' = controllers s /\
  forall code, resolve s' code =
    match resolve s code with
    | Some p => if (p_created p <? now - 3600000)%Z then None else Some p
    | None => None
    end.
Proof.
  intros Hr Hs. destruct (run_keys _ _ _ Hr) as (_ & _ & Hpc).
  cbn [step sender] in Hs. unfold sweep in Hs. injection Hs as <- <-.
  split; [reflexivity|split; [reflexivity|split; [reflexivity|]]].
  intros code. unfold resolve. cbn [pairingCodes].
  rewrite (get_filter_nodup _ _ code Hpc).
  destruct (JsMap.get (pairingCodes s) code) as [p|]; [|reflexivity].
  cbn [snd]. destruct (p_created p <? now - 3600000)%Z; reflexivity.
Qed.

Lemma sweep_expires_witness :
  resolve (state_of (run init (app scen_sweep [EvSweep 3601001]))) "100000" = None.
Proof.
  rewrite (proj2 (proj2 (proj2 (sweep_expires scen_sweep (state_of (run init scen_sweep))
             (outs_of (run init scen_sweep)) 3601001
             (state_of (run init (app scen_sweep [EvSweep 3601001]))) []
             ltac:(vm_compute; reflexivity) ltac:(vm_compute; reflexivity))))).
  vm_compute. reflexivity.
Defined.

(** X2. A code the sweep has expired no longer pairs, although its
    controller stays registered: [agent:register] with it gets "Invalid
    pairing code" and changes nothing. *)
Theorem sweep_then_register es s out now s' out' code p sid d :
  run init es = Some (s, out) -> step s (EvSweep now) = Done s' out' ->
  resolve s code = Some p -> (p_created p < now - 3600000)%Z ->
  connected s sid = true -> get_field d "code" = VStr code ->
  JsMap.get (controllers s') (p_controllerId p) = JsMap.get (controllers s) (p_controllerId p) /\
  step s' (EvAgentRegister sid d)
  = Done s' [mkEmit sid "agent:error" (VObj [("error", VStr "Invalid pairing code")])].
Proof.
  intros Hr Hs Hp Hlt Hc Hcode.
  assert (Hcl : closed s' = closed s).
  { cbn [step sender] in Hs. unfold sweep in Hs. injection Hs as <- _. reflexivity. }
  destruct (run_keys _ _ _ Hr) as (_ & _ & Hpc).
  cbn [step sender] in Hs. unfold sweep in Hs. injection Hs as Hs' _.
  assert (Hnone : JsMap.get (pairingCodes s') code = None).
  { rewrite <- Hs'. cbn [pairingCodes]. rewrite (get_filter_nodup _ _ code Hpc).
    unfold resolve in Hp. rewrite Hp. cbn [snd].
    apply Z.ltb_lt in Hlt. rewrite Hlt. reflexivity. }
  split; [rewrite <- Hs'; reflexivity|].
  unfold step. cbn [sender].
  replace (connected s' sid) with (connected s sid) by (unfold connected; rewrite Hcl; reflexivity).
  rewrite Hc. cbn [negb]. unfold on_agent_register.
  destruct d as [| | | | | |fs]; try discriminate Hcode.
  change (get_field (VObj fs) "code") with (obj_get fs "code") in Hcode.
  cbv zeta. change (get_field (VObj fs) "code") with (obj_get fs "code").
  rewrite Hcode. cbn [JsMap.get_v]. rewrite Hnone. reflexivity.
Qed.

Lemma sweep_then_register_witness :
  step (state_of (run init (app scen_sweep [EvSweep 3601001]))) (join "Y" "100000")
  = Done (state_of (run init (app scen_sweep [EvSweep 3601001])))
      [mkEmit "Y" "agent:error" (VObj [("error", VStr "Invalid pairing code")])].
Proof.
  exact (proj2 (sweep_then_register scen_sweep (state_of (run init scen_sweep))
           (outs_of (run init scen_sweep)) 3601001
           (state_of (run init (app scen_sweep [EvSweep 3601001]))) [] "100000"
           (mkPairing "A" 1000) "Y" (reg_data "100000" "Y")
           ltac:(vm_compute; reflexivity) ltac:(vm_compute; reflexivity)
           ltac:(vm_compute; reflexivity) ltac:(vm_compute; reflexivity)
           ltac:(vm_compute; reflexivity) ltac:(vm_compute; reflexivity))).
Defined.

(** X3. A successful [agent:register] (lines 147-174) records the sender as
    an agent of the code's controller, adds it to that controller's
    [agentIds] with the controller's code kept, leaves [pairingCodes] as it
    was (the code is not used up), and sends [agent:registered] to the
    sender and then [controller:agent-joined] to the controller. *)
Theorem agent_register_success s sid d code p c s' out :
  connected s sid = true -> get_field d "code" = VStr code ->
  resolve s code = Some p -> JsMap.get (controllers s) (p_controllerId p) = Some c ->
  step s (EvAgentRegister sid d) = Done s' out ->
  JsMap.get (agents s') sid = Some (mkAgent (get_field d "info") (p_controllerId p)) /\
  (exists c', JsMap.get (controllers s') (p_controllerId p) = Some c' /\
     JsSet.has (c_agentIds c') sid = true /\ c_code c' = c_code c) /\
  pairingCodes s' = pairingCodes s /\
  map e_to out = [sid; p_controllerId p] /\
  map e_event out = ["agent:registered"; "controller:agent-joined"].
Proof.
  intros Hc Hcode Hp Hctl. unfold step. cbn [sender]. rewrite Hc. cbn [negb].
  unfold on_agent_register.
  destruct d as [| | | | | |fs]; try discriminate Hcode.
  change (get_field (VObj fs) "code") with (obj_get fs "code") in Hcode.
  cbv zeta. change (get_field (VObj fs) "code") with (obj_get fs "code").
  rewrite Hcode. cbn [JsMap.get_v]. unfold resolve in Hp. rewrite Hp, Hctl.
  intros [= <- <-]. cbn [agents controllers pairingCodes].
  rewrite !JsMapFacts.get_set, !String.eqb_refl.
  split; [reflexivity|split; [|split; [reflexivity|split; reflexivity]]].
  eexists. split; [reflexivity|]. split; [apply set_add_has|reflexivity].
Qed.

Lemma agent_register_success_witness :
  JsMap.get (agents (state_of (run init [ctrl "A" 0; join "X" "100000"]))) "X"
  = Some (mkAgent (VObj [("hostname", VStr "X")]) "A").
Proof.
  exact (proj1 (agent_register_success (state_of (run init [ctrl "A" 0])) "X"
           (reg_data "100000" "X") "100000" (mkPairing "A" 0)
           (mkController VUndef "100000" [])
           (state_of (run init [ctrl "A" 0; join "X" "100000"]))
           (outs_of (run (state_of (run init [ctrl "A" 0])) [join "X" "100000"]))
           ltac:(vm_compute; reflexivity) ltac:(vm_compute; reflexivity)
           ltac:(vm_compute; reflexivity) ltac:(vm_compute; reflexivity)
           ltac:(vm_compute; reflexivity))).
Defined.

(** X4. In a registry reached from the empty one, a connection that is not
    a controller and sends [controller:register] gets an empty
    [controller:agent-list]: no agent names a live connection as its
    controller unless that connection is registered as one. *)
Theorem fresh_controller_empty_list es s out sid info rnd now s' out' :
  run init es = Some (s, out) -> connected s sid = true ->
  JsMap.has (controllers s) sid = false ->
  step s (EvControllerRegister sid info rnd now) = Done s' out' ->
  out' = [mkEmit sid "controller:registered"
            (VObj [("controllerId", VStr sid); ("code", VStr (generateCode rnd));
                   ("message", VStr "Share this code with agents to connect")]);
          mkEmit sid "controller:agent-list" (VArr [])].
Proof.
  intros Hr Hc Hnot. destruct (run_keys _ _ _ Hr) as (Hka & _ & _).
  pose proof (run_owner _ _ _ Hr) as Hown.
  unfold step. cbn [sender]. rewrite Hc. cbn [negb].
  unfold on_controller_register. intros [= _ <-].
  unfold agent_list.
  replace (filter (fun kv => String.eqb (a_controllerId (snd kv)) sid) (agents s)) with
    (@nil (string * Agent)); [reflexivity|].
  symmetry. apply filter_none. intros [x a] Hin. cbn [snd].
  destruct (String.eqb_spec (a_controllerId a) sid) as [Heq|]; [|reflexivity].
  destruct (Hown x a (get_In_nodup _ _ _ Hka Hin)) as [Hh|Hoff]; rewrite Heq in *; congruence.
Qed.

Lemma fresh_controller_empty_list_witness :
  outs_of (run (state_of (run init [ctrl "A" 0; join "X" "100000"; EvDisconnect "A"]))
             [ctrl "B" 7])
  = [mkEmit "B" "controller:registered"
       (VObj [("controllerId", VStr "B"); ("code", VStr (generateCode 7));
              ("message", VStr "Share this code with agents to connect")]);
     mkEmit "B" "controller:agent-list" (VArr [])].
Proof.
  exact (fresh_controller_empty_list scen_orphan
           (state_of (run init scen_orphan)) (outs_of (run init scen_orphan)) "B" VUndef 7 0
           (state_of (run (state_of (run init scen_orphan)) [ctrl "B" 7]))
           (outs_of (run (state_of (run init scen_orphan)) [ctrl "B" 7]))
           ltac:(vm_compute; reflexivity) ltac:(vm_compute; reflexivity)
           ltac:(vm_compute; reflexivity) ltac:(vm_compute; reflexivity)).
Defined.

(** X5. [controller:connect-agent] (lines 121-129) never changes the
    registry and answers the sender alone: [controller:agent-connected]
    when the requested id is a registered agent whose socket is connected,
    whichever controller that agent belongs to, and the
    "Agent not found or offline" error otherwise. *)
Theorem connect_agent_reply s sid v s' out :
  connected s sid = true -> step s (EvConnectAgent sid v) = Done s' out ->
  s' = s /\
  ((exists k a, v = VStr k /\ JsMap.get (agents s) k = Some a /\ connected s k = true /\
      out = [mkEmit sid "controller:agent-connected" (VObj [("agentId", v)])]) \/
   ((forall k, v = VStr k -> JsMap.has (agents s) k = false \/ connected s k = false) /\
      out = [mkEmit sid "controller:agent-error"
               (VObj [("error", VStr "Agent not found or offline")])])).
Proof.
  intros Hc. unfold step. cbn [sender]. rewrite Hc. cbn [negb].
  unfold on_connect_agent.
  destruct v as [| | | | k | |]; cbn [JsMap.get_v];
    try (intros [= <- <-]; split; [reflexivity|right; split; [discriminate|reflexivity]]).
  destruct (JsMap.get (agents s) k) as [a|] eqn:Ea.
  - destruct (connected s k) eqn:Ek; intros [= <- <-]; split; try reflexivity.
    + left. exists k, a. auto.
    + right. split; [|reflexivity]. intros k' [= <-]. right. exact Ek.
  - intros [= <- <-]. split; [reflexivity|]. right. split; [|reflexivity].
    intros k' [= <-]. left. unfold JsMap.has. rewrite Ea. reflexivity.
Qed.

Lemma connect_agent_reply_witness :
  step after_pair (EvConnectAgent "Y" (VStr "X"))
  = Done after_pair [mkEmit "Y" "controller:agent-connected" (VObj [("agentId", VStr "X")])].
Proof.
  destruct (connect_agent_reply after_pair "Y" (VStr "X") after_pair
              [mkEmit "Y" "controller:agent-connected" (VObj [("agentId", VStr "X")])]
              ltac:(vm_compute; reflexivity) ltac:(vm_compute; reflexivity)) as [_ _].
  vm_compute. reflexivity.
Defined.

(** X6. When an agent that is not also a controller disconnects (lines
    225-236), its entry is removed, every other agent entry is kept, its id
    leaves its controller's [agentIds], [pairingCodes] is unchanged, and
    the only message is [controller:agent-left] to its controller. *)
Theorem agent_disconnect s sid a c s' out :
  connected s sid = true -> JsMap.get (agents s) sid = Some a ->
  JsMap.get (controllers s) (a_controllerId a) = Some c ->
  JsMap.has (controllers s) sid = false ->
  step s (EvDisconnect sid) = Done s' out ->
  JsMap.get (agents s') sid = None /\
  (forall x, x <> sid -> JsMap.get (agents s') x = JsMap.get (agents s) x) /\
  JsMap.get (controllers s') (a_controllerId a)
  = Some (mkController (c_info c) (c_code c) (JsSet.delete (c_agentIds c) sid)) /\
  pairingCodes s' = pairingCodes s /\
  out = [mkEmit (a_controllerId a) "controller:agent-left" (VObj [("agentId", VStr sid)])].
Proof.
  intros Hc Ha Hctl Hnot.
  assert (Hne : String.eqb sid (a_controllerId a) = false).
  { destruct (String.eqb_spec sid (a_controllerId a)) as [Heq|]; [|reflexivity].
    rewrite <- Heq in Hctl. rewrite (has_get _ _ _ Hctl) in Hnot. discriminate. }
  assert (Hnone : JsMap.get (controllers s) sid = None).
  { unfold JsMap.has in Hnot. destruct (JsMap.get (controllers s) sid); congruence. }
  unfold step. cbn [sender]. rewrite Hc. cbn [negb].
  unfold on_disconnect, disconnect_agent. cbn [agents controllers pairingCodes closed].
  rewrite Ha, Hctl. unfold disconnect_controller. cbn [controllers].
  rewrite JsMapFacts.get_set, Hne, Hnone. intros [= <- <-].
  cbn [agents controllers pairingCodes]. rewrite !JsMapFacts.get_delete, String.eqb_refl.
  split; [reflexivity|split; [|split; [|split; reflexivity]]].
  - intros x Hx. apply String.eqb_neq in Hx. rewrite JsMapFacts.get_delete, Hx. reflexivity.
  - rewrite JsMapFacts.get_set, String.eqb_refl. reflexivity.
Qed.

Lemma agent_disconnect_witness :
  outs_of (run after_pair [EvDisconnect "X"])
  = [mkEmit "A" "controller:agent-left" (VObj [("agentId", VStr "X")])].
Proof.
  exact (proj2 (proj2 (proj2 (proj2 (agent_disconnect after_pair "X"
           (mkAgent (VObj [("hostname", VStr "X")]) "A")
           (mkController VUndef "100000" ["X"; "Y"])
           (state_of (run after_pair [EvDisconnect "X"])) (outs_of (run after_pair [EvDisconnect "X"]))
           ltac:(vm_compute; reflexivity) ltac:(vm_compute; reflexivity)
           ltac:(vm_compute; reflexivity) ltac:(vm_compute; reflexivity)
           ltac:(vm_compute; reflexivity)))))).
Defined.

(** X7. The disconnect of a connection that is neither an agent nor a
    controller sends nothing and leaves the three maps as they were; only
    the connection is marked closed. *)
Theorem disconnect_unknown s sid s' out :
  connected s sid = true -> JsMap.has (agents s) sid = false ->
  JsMap.has (controllers s) sid = false ->
  step s (EvDisconnect sid) = Done s' out ->
  out = [] /\ s' = mkState (agents s) (controllers s) (pairingCodes s) (sid :: closed s).
Proof.
  intros Hc Ha Hctl. unfold JsMap.has in Ha, Hctl.
  unfold step. cbn [sender]. rewrite Hc. cbn [negb].
  unfold on_disconnect, disconnect_agent. cbn [agents].
  destruct (JsMap.get (agents s) sid); [discriminate|].
  unfold disconnect_controller. cbn [controllers].
  destruct (JsMap.get (controllers s) sid); [discriminate|].
  intros [= <- <-]. split; reflexivity.
Qed.

Lemma disconnect_unknown_witness :
  outs_of (run after_pair [EvDisconnect "Q"]) = [].
Proof.
  exact (proj1 (disconnect_unknown after_pair "Q"
           (state_of (run after_pair [EvDisconnect "Q"])) (outs_of (run after_pair [EvDisconnect "Q"]))
           ltac:(vm_compute; reflexivity) ltac:(vm_compute; reflexivity)
           ltac:(vm_compute; reflexivity) ltac:(vm_compute; reflexivity))).
Defined.

(** X8. Routing of agent events (lines 209-218): a message is relayed
    exactly when the sender is connected, the event is one of the listed
    agent events, the sender is a registered agent and its controller is
    registered and connected; then it is one message, to that controller,
    under the same event name. *)
Theorem agent_msg_route s sid ev data s' out :
  step s (EvAgentMsg sid ev data) = Done s' out ->
  s' = s /\
  (out <> [] <->
   connected s sid = true /\ listed agentEvents ev = true /\
   exists a, JsMap.get (agents s) sid = Some a /\
     JsMap.has (controllers s) (a_controllerId a) = true /\
     connected s (a_controllerId a) = true) /\
  forall a, JsMap.get (agents s) sid = Some a -> out <> [] ->
  exists p, out = [mkEmit (a_controllerId a) ev p].
Proof.
  unfold step. cbn [sender].
  destruct (connected s sid) eqn:Hc; cbn [negb];
    [|intros [= <- <-]; split; [reflexivity|split; [split; [tauto|intros (? & _); discriminate]|tauto]]].
  destruct (listed agentEvents ev) eqn:Hl;
    [|intros [= <- <-]; split; [reflexivity|split; [split; [tauto|intros (_ & ? & _); discriminate]|tauto]]].
  unfold on_agent_msg.
  destruct (JsMap.get (agents s) sid) as [a|] eqn:Ea;
    [|intros [= <- <-]; split; [reflexivity|split; [split; [tauto|intros (_ & _ & b & ? & _); discriminate]|tauto]]].
  unfold JsMap.has.
  destruct (JsMap.get (controllers s) (a_controllerId a)) as [c|] eqn:Ec.
  - destruct (connected s (a_controllerId a)) eqn:Hcc; intros [= <- <-];
      (split; [reflexivity|split]).
    + split; [intros _; split; [reflexivity|split; [reflexivity|]]|discriminate].
      exists a. rewrite Ec. split; [reflexivity|split; [reflexivity|exact Hcc]].
    + intros b [= <-] _. eexists. reflexivity.
    + split; [tauto|]. intros (_ & _ & b & [= <-] & _ & Hb). congruence.
    + tauto.
  - intros [= <- <-]. split; [reflexivity|split; [|tauto]].
    split; [tauto|]. intros (_ & _ & b & [= <-] & Hb & _). rewrite Ec in Hb. discriminate.
Qed.

Lemma agent_msg_route_witness :
  exists p, outs_of (run after_pair [EvAgentMsg "X" "agent:frame" (VNum 1)])
            = [mkEmit "A" "agent:frame" p].
Proof.
  destruct (agent_msg_route after_pair "X" "agent:frame" (VNum 1) after_pair
              (outs_of (run after_pair [EvAgentMsg "X" "agent:frame" (VNum 1)]))
              ltac:(vm_compute; reflexivity)) as (_ & _ & H).
  apply (H (mkAgent (VObj [("hostname", VStr "X")]) "A")).
  - vm_compute. reflexivity.
  - vm_compute. discriminate.
Defined.

Lemma get_In {V} (m : JsMap.t V) k v : JsMap.get m k = Some v -> In (k, v) m.
Proof.
  induction m as [|[k0 v0] r IH]; simpl; [discriminate|].
  destruct (String.eqb_spec k k0) as [->|]; [intros [= ->]; left; reflexivity|].
  intros H. right. exact (IH H).
Qed.

Lemma length_set {V} (m : JsMap.t V) k v :
  List.length (JsMap.set m k v) = if JsMap.has m k then List.length m else S (List.length m).
Proof.
  unfold JsMap.has. induction m as [|[k0 v0] r IH]; simpl; [reflexivity|].
  destruct (String.eqb k k0); simpl; [reflexivity|].
  rewrite IH. destruct (JsMap.get r k); reflexivity.
Qed.

(** X9. [agent:register] with an [undefined] or [null] payload throws in
    the destructuring of line 135; the uncaught error ends the process, so
    no run through that event completes, whatever comes after it. *)
Theorem register_nullish_aborts es s out sid d rest :
  run init es = Some (s, out) -> connected s sid = true -> (d = VUndef \/ d = VNull) ->
  step s (EvAgentRegister sid d) = Threw /\
  run init (app es (EvAgentRegister sid d :: rest)) = None.
Proof.
  intros Hr Hc Hd.
  assert (Ht : step s (EvAgentRegister sid d) = Threw).
  { unfold step. cbn [sender]. rewrite Hc. cbn [negb].
    destruct Hd as [-> | ->]; reflexivity. }
  split; [exact Ht|]. rewrite run_app, Hr. simpl. rewrite Ht. reflexivity.
Qed.

Lemma register_nullish_aborts_witness :
  run init (app scen_pair [EvAgentRegister "Z" VNull; EvDisconnect "A"]) = None.
Proof.
  exact (proj2 (register_nullish_aborts scen_pair after_pair (outs_of (run init scen_pair))
           "Z" VNull [EvDisconnect "A"] ltac:(vm_compute; reflexivity)
           ltac:(vm_compute; reflexivity) (or_intror eq_refl))).
Defined.

(** X10. [GET /lookup/:code] (lines 43-52) after [controller:register]
    reports the new code as found, for the registering connection; once that
    connection disconnects, the same lookup reports it as not found. *)
Theorem lookup_round_trip es s out sid info rnd now s' out' s'' out'' :
  run init es = Some (s, out) -> connected s sid = true ->
  step s (EvControllerRegister sid info rnd now) = Done s' out' ->
  lookup s' (generateCode rnd) = VObj [("found", VBool true); ("controllerId", VStr sid)] /\
  (step s' (EvDisconnect sid) = Done s'' out'' ->
   lookup s'' (generateCode rnd) = VObj [("found", VBool false)]).
Proof.
  intros Hr Hc Hst.
  assert (Hk : keys_inv s') by exact (keys_step _ _ _ _ (run_keys _ _ _ Hr) Hst).
  destruct Hk as (_ & _ & Hpc).
  revert Hst. unfold step. cbn [sender]. rewrite Hc. cbn [negb].
  unfold on_controller_register. intros [= <- _].
  unfold lookup. cbn [pairingCodes controllers agents closed] in *.
  rewrite JsMapFacts.get_set, String.eqb_refl. split; [reflexivity|].
  unfold step. cbn [sender]. unfold connected. cbn [closed].
  replace (negb (negb (existsb (String.eqb sid) (closed s)))) with false
    by (unfold connected in Hc; destruct (existsb (String.eqb sid) (closed s)); [discriminate|reflexivity]).
  rewrite on_disconnect_shape. cbv zeta. intros [= <- _].
  match goal with |- context [disconnect_agent ?s0 sid] => set (s1 := fst (disconnect_agent s0 sid)) end.
  destruct (disconnect_controller_keys s1 sid (generateCode rnd)) as (_ & _ & ->).
  assert (Hs1 : JsMap.has (controllers s1) sid = true).
  { subst s1. rewrite (proj1 (disconnect_agent_keys _ sid sid)). cbn [controllers].
    rewrite has_set, String.eqb_refl. reflexivity. }
  rewrite Hs1. subst s1. rewrite (proj1 (proj2 (disconnect_agent_keys _ sid sid))).
  cbn [pairingCodes]. rewrite (get_filter_nodup _ _ _ Hpc).
  rewrite JsMapFacts.get_set, String.eqb_refl. cbn [snd p_controllerId].
  rewrite String.eqb_refl. reflexivity.
Qed.

Lemma lookup_round_trip_witness :
  lookup (state_of (run init [ctrl "A" 0; EvDisconnect "A"])) "100000"
  = VObj [("found", VBool false)].
Proof.
  exact (proj2 (lookup_round_trip [] init [] "A" VUndef 0 0 after_A
           (outs_of (run init [ctrl "A" 0]))
           (state_of (run init [ctrl "A" 0; EvDisconnect "A"]))
           (outs_of (run after_A [EvDisconnect "A"]))
           ltac:(reflexivity) ltac:(reflexivity) ltac:(vm_compute; reflexivity))
           ltac:(vm_compute; reflexivity)).
Defined.

(** X11. [GET /agents/:controllerId] (lines 55-69) reads [agents] only: the
    disconnect of a controller that is not also an agent leaves the route's
    answer for every id unchanged, so the agents it left behind are still
    listed, each marked ["connected": true]. *)
Theorem agents_route_after_disconnect s c s' out cid :
  connected s c = true -> JsMap.has (agents s) c = false ->
  step s (EvDisconnect c) = Done s' out ->
  agents_for s' cid = agents_for s cid.
Proof.
  intros Hc Ha. unfold step. cbn [sender]. rewrite Hc. cbn [negb].
  rewrite on_disconnect_shape. cbv zeta. intros [= <- _].
  unfold agents_for. rewrite (proj1 (disconnect_controller_keys _ c c)).
  rewrite disconnect_agent_shape. cbn [agents].
  unfold JsMap.has in Ha. destruct (JsMap.get (agents s) c); [discriminate|reflexivity].
Qed.

Lemma agents_route_after_disconnect_witness :
  agents_for (state_of (run init scen_orphan)) "A"
  = [VObj [("id", VStr "X"); ("hostname", VStr "X"); ("username", VUndef);
           ("platform", VUndef); ("connected", VBool true)]].
Proof.
  rewrite (agents_route_after_disconnect (state_of (run init (firstn 2 scen_orphan))) "A"
             (state_of (run init scen_orphan))
             (outs_of (run (state_of (run init (firstn 2 scen_orphan))) [EvDisconnect "A"])) "A"
             ltac:(vm_compute; reflexivity) ltac:(vm_compute; reflexivity)
             ltac:(vm_compute; reflexivity)).
  vm_compute. reflexivity.
Defined.

(** X12. When every [agentIds] entry points back at its controller (the
    invariant of C1), [GET /agents/:controllerId] lists every member of a
    registered controller's [agentIds], with that agent's host details. *)
Theorem agents_route_lists_members s cid c x :
  assoc_inv s -> JsMap.get (controllers s) cid = Some c -> In x (c_agentIds c) ->
  exists a, JsMap.get (agents s) x = Some a /\
    In (VObj [("id", VStr x); ("hostname", get_field (a_info a) "hostname");
              ("username", get_field (a_info a) "username");
              ("platform", get_field (a_info a) "platform"); ("connected", VBool true)])
       (agents_for s cid).
Proof.
  intros Hinv Hc Hx. destruct (Hinv cid c Hc x Hx) as (a & Ha & Hown).
  exists a. split; [exact Ha|]. unfold agents_for.
  apply in_map_iff. exists (x, a). split; [reflexivity|].
  apply filter_In. split; [exact (get_In _ _ _ Ha)|]. cbn [snd]. rewrite Hown.
  apply String.eqb_refl.
Qed.

Lemma agents_route_lists_members_witness :
  exists a, JsMap.get (agents after_pair) "Y" = Some a /\
    In (VObj [("id", VStr "Y"); ("hostname", get_field (a_info a) "hostname");
              ("username", get_field (a_info a) "username");
              ("platform", get_field (a_info a) "platform"); ("connected", VBool true)])
       (agents_for after_pair "A").
Proof.
  apply (agents_route_lists_members after_pair "A" (mkController VUndef "100000" ["X"; "Y"]) "Y").
  - intros cid c Hc x Hx.
    assert (E : controllers after_pair = [("A", mkController VUndef "100000" ["X"; "Y"])])
      by (vm_compute; reflexivity).
    rewrite E in Hc. simpl in Hc.
    destruct (String.eqb_spec cid "A") as [->|]; [injection Hc as <-|discriminate].
    destruct Hx as [<-|[<-|[]]]; eexists; split; vm_compute; reflexivity.
  - vm_compute. reflexivity.
  - right. left. reflexivity.
Defined.

(** X13. [GET /] (lines 33-40): an [agent:register] that pairs a
    connection not yet an agent raises the reported agent count by one, a
    repeated one from the same connection leaves it, and the controller
    count never moves. *)
Theorem health_after_register s sid d code p c s' out u :
  connected s sid = true -> get_field d "code" = VStr code ->
  resolve s code = Some p -> JsMap.get (controllers s) (p_controllerId p) = Some c ->
  step s (EvAgentRegister sid d) = Done s' out ->
  health s' u =
  VObj [("status", VStr "online");
        ("agents", VNum (Z.of_nat (List.length (agents s)) +
                         (if JsMap.has (agents s) sid then 0 else 1))%Z);
        ("controllers", VNum (Z.of_nat (List.length (controllers s))));
        ("uptime", u)].
Proof.
  intros Hc Hcode Hp Hctl. unfold step. cbn [sender]. rewrite Hc. cbn [negb].
  unfold on_agent_register.
  destruct d as [| | | | | |fs]; try discriminate Hcode.
  change (get_field (VObj fs) "code") with (obj_get fs "code") in Hcode.
  cbv zeta. change (get_field (VObj fs) "code") with (obj_get fs "code").
  rewrite Hcode. cbn [JsMap.get_v]. unfold resolve in Hp. rewrite Hp, Hctl.
  intros [= <- _]. unfold health. cbn [agents controllers].
  rewrite !length_set, (has_get _ _ _ Hctl).
  destruct (JsMap.has (agents s) sid); [rewrite Z.add_0_r; reflexivity|].
  rewrite Nat2Z.inj_succ, Z.add_1_r. reflexivity.
Qed.

Lemma health_after_register_witness :
  health (state_of (run init [ctrl "A" 0; join "X" "100000"])) (VNum 5)
  = VObj [("status", VStr "online"); ("agents", VNum 1); ("controllers", VNum 1);
          ("uptime", VNum 5)].
Proof.
  rewrite (health_after_register after_A "X" (reg_data "100000" "X") "100000" (mkPairing "A" 0)
             (mkController VUndef "100000" [])
             (state_of (run init [ctrl "A" 0; join "X" "100000"]))
             (outs_of (run after_A [join "X" "100000"])) (VNum 5)
             ltac:(vm_compute; reflexivity) ltac:(vm_compute; reflexivity)
             ltac:(vm_compute; reflexivity) ltac:(vm_compute; reflexivity)
             ltac:(vm_compute; reflexivity)).
  vm_compute. reflexivity.
Defined.

(** X14. In every registry reached from the empty one, each agent's
    [controllerId] is a registered controller or a connection that has
    disconnected: an agent never names a live connection that is not a
    controller. *)
Theorem agents_owner_reachable es s out x a :
  run init es = Some (s, out) -> JsMap.get (agents s) x = Some a ->
  JsMap.has (controllers s) (a_controllerId a) = true \/
  connected s (a_controllerId a) = false.
Proof. intros Hr. exact (run_owner _ _ _ Hr x a). Qed.

Lemma agents_owner_reachable_witness :
  connected (state_of (run init scen_orphan)) "A" = false.
Proof.
  destruct (agents_owner_reachable scen_orphan (state_of (run init scen_orphan))
              (outs_of (run init scen_orphan)) "X" (mkAgent (VObj [("hostname", VStr "X")]) "A")
              ltac:(vm_compute; reflexivity) ltac:(vm_compute; reflexivity)) as [H|H].
  - exfalso. revert H. vm_compute. discriminate.
  - exact H.
Defined.
